(** * Orders microservice: [OrdersService] (src/orders/orders.service.ts)

    A shallow embedding of the order coordinator.  Every public method of
    the TypeScript class is a computation in a small monad that threads the
    observable world (the database, the messages handed to the NATS client
    and the logger output) and may end in a thrown exception.

    Conventions.
    - JavaScript numbers that the service handles (prices, quantities,
      page numbers, counts) are integers in the models below and are
      represented by [Z]; [Math.ceil (a / b)] is computed over [Q].
    - Identifiers (order ids, product ids, charge ids) are strings.
    - Values produced by the environment ([uuid()] defaults of the
      database, [new Date()], replies of the remote services) are
      parameters of the operations. *)

From Stdlib Require Import List String ZArith QArith Qround Lia Bool.
Import ListNotations.
Local Open Scope string_scope.
Local Open Scope list_scope.
Local Open Scope Z_scope.

Set Implicit Arguments.

(** ** Exceptions and the service monad *)

Inductive HttpStatus := BAD_REQUEST | NOT_FOUND.

(** Values that can be thrown while a method runs.  Every one of them has
    a [message] property, which is all that [create] reads in its
    [catch] block. *)
Inductive Exception :=
| RpcException (status : HttpStatus) (message : string)
| TypeError (message : string)
| PrismaClientKnownRequestError (code : string) (message : string)
| PrismaClientValidationError (message : string)
| RemoteError (message : string).

Definition message (error : Exception) : string :=
  match error with
  | RpcException _ m => m
  | TypeError m => m
  | PrismaClientKnownRequestError _ m => m
  | PrismaClientValidationError m => m
  | RemoteError m => m
  end.

Definition isRpcException (error : Exception) : bool :=
  match error with
  | RpcException _ _ => true
  | _ => false
  end.

Inductive Result (A : Type) :=
| Ok (value : A)
| Throw (error : Exception).
Arguments Throw {A} error.

(** ** Data model *)

Inductive OrderStatus := PENDING | PAID | DELIVERED | CANCELLED.

Definition OrderStatus_eqb (a b : OrderStatus) : bool :=
  match a, b with
  | PENDING, PENDING | PAID, PAID
  | DELIVERED, DELIVERED | CANCELLED, CANCELLED => true
  | _, _ => false
  end.

(** A row of the [Order] table. *)
Module Order.
Record t := mk {
  id : string;
  totalAmount : Z;
  totalItems : Z;
  status : OrderStatus;
  paid : bool;
  paidAt : option Z;
  stripeChargeId : option string
}.
End Order.

(** The columns of an [OrderItem] row that the service selects
    ([price], [quantity], [productId]). *)
Module OrderItem.
Record t := mk {
  productId : string;
  quantity : Z;
  price : Z
}.
End OrderItem.

(** A row of the [OrderItem] table: the selected columns and the owning
    order. *)
Module OrderItemRow.
Record t := mk {
  orderId : string;
  item : OrderItem.t
}.
End OrderItemRow.

Module OrderReceipt.
Record t := mk {
  orderId : string;
  receiptUrl : string
}.
End OrderReceipt.

(** The three tables the service touches. *)
Module Db.
Record t := mk {
  order : list Order.t;
  orderItem : list OrderItemRow.t;
  orderReceipt : list OrderReceipt.t
}.
End Db.

(** A record of the product catalogue, as the validator replies it. *)
Module Product.
Record t := mk {
  id : string;
  name : string;
  price : Z
}.
End Product.

(** *** Data transfer objects *)

Module OrderItemDto.
Record t := mk {
  productId : string;
  quantity : Z
}.
End OrderItemDto.

Module CreateOrderDto.
Record t := mk { items : list OrderItemDto.t }.
End CreateOrderDto.

Module OrderPaginationDto.
Record t := mk {
  status : option OrderStatus;
  page : Z;
  limit : Z
}.
End OrderPaginationDto.

Module ChangeOrderStatusDto.
Record t := mk {
  id : string;
  status : OrderStatus
}.
End ChangeOrderStatusDto.

Module PaidOrderDto.
Record t := mk {
  orderId : string;
  stripePaymentId : string;
  receiptUrl : string
}.
End PaidOrderDto.

(** An order row together with its selected items: what [include:
    { OrderItem: { select: ... } }] returns. *)
Module OrderWithItems.
Record t := mk {
  order : Order.t;
  OrderItem : list OrderItem.t
}.
End OrderWithItems.

(** An item enriched with the product name. *)
Module NamedItem.
Record t := mk {
  item : OrderItem.t;
  name : string
}.
End NamedItem.

(** [{ ...order, OrderItem: [...] }] with enriched items: the interface
    [OrderWithProducts]. *)
Module OrderWithProducts.
Record t := mk {
  order : Order.t;
  OrderItem : list NamedItem.t
}.
End OrderWithProducts.

(** *** Messages handed to the NATS client *)

Module PaymentItem.
Record t := mk {
  name : string;
  price : Z;
  quantity : Z
}.
End PaymentItem.

Module PaymentSessionRequest.
Record t := mk {
  orderId : string;
  currency : string;
  items : list PaymentItem.t
}.
End PaymentSessionRequest.

Inductive Message :=
| validate_products (productIds : list string)
| create_payment_session (payload : PaymentSessionRequest.t).

(** ** The world and the monad *)

Module World.
Record t := mk {
  db : Db.t;
  sent : list Message;
  log : list string
}.
End World.

Definition M (A : Type) : Type := World.t -> Result A * World.t.

Definition ret {A} (a : A) : M A := fun w => (Ok a, w).

Definition throw {A} (error : Exception) : M A := fun w => (Throw error, w).

Definition bind {A B} (m : M A) (k : A -> M B) : M B :=
  fun w =>
    match m w with
    | (Ok a, w') => k a w'
    | (Throw error, w') => (Throw error, w')
    end.

(** [try { body } catch (error) { handler }]. *)
Definition try_catch {A} (body : M A) (handler : Exception -> M A) : M A :=
  fun w =>
    match body w with
    | (Ok a, w') => (Ok a, w')
    | (Throw error, w') => handler error w'
    end.

Declare Scope service_scope.
Delimit Scope service_scope with service.
Notation "x <- m ;; k" := (bind m (fun x => k))
  (at level 61, m at next level, right associativity) : service_scope.
Notation "m ;;; k" := (bind m (fun _ => k))
  (at level 61, right associativity) : service_scope.
Local Open Scope service_scope.

(** [xs.map(f)] where the callback may throw: elements are visited left to
    right and the first exception aborts the traversal. *)
Fixpoint mapM {A B} (f : A -> M B) (xs : list A) : M (list B) :=
  match xs with
  | [] => ret []
  | x :: xs' => y <- f x ;; ys <- mapM f xs' ;; ret (y :: ys)
  end.

(** [xs.reduce(f, init)] where the callback may throw. *)
Fixpoint reduceM {A B} (f : B -> A -> M B) (xs : list A) (init : B) : M B :=
  match xs with
  | [] => ret init
  | x :: xs' => acc <- f init x ;; reduceM f xs' acc
  end.

(** ** The repository: the Prisma client calls the service makes

    Each function below is one call of the generated Prisma client and is
    one transaction: it either commits all its writes or throws and leaves
    every table as it was. *)

Module Prisma.

Definition hasId (id : string) (o : Order.t) : bool :=
  String.eqb (Order.id o) id.

(** [where: { status }]: an absent ([undefined]) status does not
    constrain the query. *)
Definition hasStatus (status : option OrderStatus) (o : Order.t) : bool :=
  match status with
  | None => true
  | Some s => OrderStatus_eqb (Order.status o) s
  end.

Definition itemsOf (id : string) (d : Db.t) : list OrderItem.t :=
  map OrderItemRow.item
    (filter (fun r => String.eqb (OrderItemRow.orderId r) id)
       (Db.orderItem d)).

Definition receiptsOf (id : string) (d : Db.t) : list OrderReceipt.t :=
  filter (fun r => String.eqb (OrderReceipt.orderId r) id)
    (Db.orderReceipt d).

Definition lookup (id : string) (d : Db.t) : option Order.t :=
  find (hasId id) (Db.order d).

Fixpoint updateRow (id : string) (data : Order.t -> Order.t)
    (rows : list Order.t) : list Order.t :=
  match rows with
  | [] => []
  | o :: rows' =>
      if hasId id o then data o :: rows' else o :: updateRow id data rows'
  end.

(** Modelled from the spec: the column defaults of [schema.prisma],
    which is not among the sources.  A new order is PENDING, unpaid,
    with no payment date and no charge reference (spec, section 3). *)
Definition newOrder (id : string) (totalAmount totalItems : Z) : Order.t :=
  Order.mk id totalAmount totalItems PENDING false None None.

(** [this.order.create({ data: { totalAmount, totalItems, OrderItem:
    { createMany: { data } } }, include: { OrderItem: { select } } })].
    [uuid] is the identifier the [uuid()] default draws for the new
    row; the primary key rejects an identifier that is already taken. *)
Definition order_create (uuid : string) (totalAmount totalItems : Z)
    (data : list OrderItem.t) : M OrderWithItems.t :=
  fun w =>
    let d := World.db w in
    match lookup uuid d with
    | Some _ =>
        (Throw (PrismaClientKnownRequestError "P2002"
                  "Unique constraint failed on the fields: (`id`)"), w)
    | None =>
        let o := newOrder uuid totalAmount totalItems in
        let d' := Db.mk (Db.order d ++ [o])
                    (Db.orderItem d ++ map (OrderItemRow.mk uuid) data)
                    (Db.orderReceipt d) in
        (Ok (OrderWithItems.mk o data),
         World.mk d' (World.sent w) (World.log w))
    end.

(** [this.order.count({ where: { status } })]. *)
Definition order_count (status : option OrderStatus) : M Z :=
  fun w =>
    (Ok (Z.of_nat (List.length (filter (hasStatus status)
                             (Db.order (World.db w))))), w).

(** [this.order.findMany({ skip, take, where: { status } })].  Prisma
    rejects a negative [skip]; a negative [take] reads the rows backwards
    from the end of the result. *)
Definition order_findMany (skip take : Z) (status : option OrderStatus)
    : M (list Order.t) :=
  fun w =>
    let rows := filter (hasStatus status) (Db.order (World.db w)) in
    if skip <? 0 then
      (Throw (PrismaClientValidationError
                "Invalid value for skip argument: Value can only be positive"),
       w)
    else if take <? 0 then
      (Ok (rev (firstn (Z.to_nat (- take))
                  (skipn (Z.to_nat skip) (rev rows)))), w)
    else
      (Ok (firstn (Z.to_nat take) (skipn (Z.to_nat skip) rows)), w).

(** [this.order.findFirst({ where: { id }, include: { OrderItem:
    { select } } })]: [null] when no row has the identifier. *)
Definition order_findFirst (id : string) : M (option OrderWithItems.t) :=
  fun w =>
    let d := World.db w in
    (Ok (match lookup id d with
         | Some o => Some (OrderWithItems.mk o (itemsOf id d))
         | None => None
         end), w).

(** Modelled from the spec: the constraints of the [OrderReceipt] table
    are declared in [schema.prisma], which is not among the sources.  By
    section 3 of the spec an order owns at most one [OrderReceipt], so the
    nested insert is refused ([None]) when a receipt is already stored for
    the order; otherwise it adds one row. *)
Definition orderReceipt_create (orderId receiptUrl : string) (d : Db.t)
    : option (list OrderReceipt.t) :=
  match receiptsOf orderId d with
  | [] => Some (Db.orderReceipt d ++ [OrderReceipt.mk orderId receiptUrl])
  | _ :: _ => None
  end.

(** [this.order.update({ where: { id }, data })], where [data] may hold
    a nested [OrderReceipt: { create: { receiptUrl } }].  The row update
    and the nested insert are one transaction: when the insert is refused
    the row is not updated either.  Prisma throws P2025 when no row has
    the identifier and P2002 when the insert breaks the uniqueness of the
    receipt. *)
Definition order_update (id : string) (data : Order.t -> Order.t)
    (receiptUrl : option string) : M Order.t :=
  fun w =>
    let d := World.db w in
    match lookup id d with
    | None =>
        (Throw (PrismaClientKnownRequestError "P2025"
                  "Record to update not found."), w)
    | Some o =>
        let inserted :=
          match receiptUrl with
          | Some url => orderReceipt_create id url d
          | None => Some (Db.orderReceipt d)
          end in
        match inserted with
        | None =>
            (Throw (PrismaClientKnownRequestError "P2002"
                      "Unique constraint failed on the fields: (`orderId`)"),
             w)
        | Some receipts =>
            let d' := Db.mk (updateRow id data (Db.order d))
                        (Db.orderItem d) receipts in
            (Ok (data o), World.mk d' (World.sent w) (World.log w))
        end
    end.

End Prisma.

(** ** The NATS client and the logger *)

(** What the remote services answer.  [firstValueFrom (client.send ...)]
    resolves with the reply or rejects with the remote error. *)
Module ClientProxy.
Record t (Session : Type) := mk {
  validateProducts : list string -> Result (list Product.t);
  createPaymentSession : PaymentSessionRequest.t -> Result Session
}.
End ClientProxy.

Definition Math_ceil (q : Q) : Z := Qceiling q.

(** [products.find(product => product.id === productId)]: [None] stands
    for [undefined]. *)
Definition findProduct (products : list Product.t) (productId : string)
    : option Product.t :=
  find (fun product => String.eqb (Product.id product) productId) products.

(** Reading [.price] or [.name] of the result of [find]: a [TypeError]
    when the result is [undefined]. *)
Definition dot_price (p : option Product.t) : M Z :=
  match p with
  | Some product => ret (Product.price product)
  | None =>
      throw (TypeError "Cannot read properties of undefined (reading 'price')")
  end.

Definition dot_name (p : option Product.t) : M string :=
  match p with
  | Some product => ret (Product.name product)
  | None =>
      throw (TypeError "Cannot read properties of undefined (reading 'name')")
  end.

Definition logger_log (line : string) : M unit :=
  fun w => (Ok tt, World.mk (World.db w) (World.sent w) (World.log w ++ [line])).

Definition emit (msg : Message) (w : World.t) : World.t :=
  World.mk (World.db w) (World.sent w ++ [msg]) (World.log w).

(** ** The service *)

(** The result of [findAll]. *)
Module Meta.
Record t := mk {
  total : Z;
  page : Z;
  lastPage : Z
}.
End Meta.

Module Page.
Record t := mk {
  data : list Order.t;
  meta : Meta.t
}.
End Page.

(** [data: { status }] of [changeStatus]. *)
Definition setStatus (status : OrderStatus) (o : Order.t) : Order.t :=
  Order.mk (Order.id o) (Order.totalAmount o) (Order.totalItems o)
    status (Order.paid o) (Order.paidAt o) (Order.stripeChargeId o).

(** [data: { status: 'PAID', paid: true, paidAt, stripeChargeId }] of
    [paidOrder]. *)
Definition setPaid (paidAt : Z) (stripeChargeId : string) (o : Order.t)
    : Order.t :=
  Order.mk (Order.id o) (Order.totalAmount o) (Order.totalItems o)
    PAID true (Some paidAt) (Some stripeChargeId).

Section OrdersService.

(** The type of the payment gateway's session object: the service never
    looks inside it. *)
Variable Session : Type.

(** [this.client]: the replies of the remote services. *)
Variable client : ClientProxy.t Session.

(** The identifier drawn by the database for a row created by this call. *)
Variable uuid : string.

(** [new Date()]: the instant of this call. *)
Variable now : Z.

(** [firstValueFrom (this.client.send ({cmd: 'validate_products'},
    productIds))]. *)
Definition send_validate_products (productIds : list string)
    : M (list Product.t) :=
  fun w =>
    (ClientProxy.validateProducts client productIds,
     emit (validate_products productIds) w).

(** [firstValueFrom (this.client.send ('create.payment.session',
    payload))]. *)
Definition send_create_payment_session (payload : PaymentSessionRequest.t)
    : M Session :=
  fun w =>
    (ClientProxy.createPaymentSession client payload,
     emit (create_payment_session payload) w).

(** The callback of the first [reduce] of [create], lines 35-41: the
    accumulator [acc] is bound and not used. *)
Definition totalAmountStep (products : list Product.t) (acc : Z)
    (orderItem : OrderItemDto.t) : M Z :=
  price <- dot_price
             (findProduct products (OrderItemDto.productId orderItem)) ;;
  ret (price * OrderItemDto.quantity orderItem).

(** The callback of the second [reduce] of [create], lines 43-45. *)
Definition totalItemsStep (acc : Z) (orderItem : OrderItemDto.t) : Z :=
  acc + OrderItemDto.quantity orderItem.

(** The callback of [createMany.data], lines 54-60. *)
Definition itemData (products : list Product.t) (item : OrderItemDto.t)
    : M OrderItem.t :=
  price <- dot_price (findProduct products (OrderItemDto.productId item)) ;;
  ret (OrderItem.mk (OrderItemDto.productId item)
         (OrderItemDto.quantity item) price).

(** [{ ...item, name: products.find (...).name }], used by [create] and
    [findOne]. *)
Definition withName (products : list Product.t) (item : OrderItem.t)
    : M NamedItem.t :=
  name <- dot_name (findProduct products (OrderItem.productId item)) ;;
  ret (NamedItem.mk item name).

(** The [try] block of [create], lines 28-82. *)
Definition create_body (createOrderDto : CreateOrderDto.t)
    : M OrderWithProducts.t :=
  let productIds :=
    map OrderItemDto.productId (CreateOrderDto.items createOrderDto) in
  products <- send_validate_products productIds ;;
  totalAmount <- reduceM (totalAmountStep products)
                   (CreateOrderDto.items createOrderDto) 0 ;;
  let totalItems :=
    fold_left totalItemsStep (CreateOrderDto.items createOrderDto) 0 in
  data <- mapM (itemData products) (CreateOrderDto.items createOrderDto) ;;
  order <- Prisma.order_create uuid totalAmount totalItems data ;;
  OrderItem <- mapM (withName products) (OrderWithItems.OrderItem order) ;;
  ret (OrderWithProducts.mk (OrderWithItems.order order) OrderItem).

Definition create (createOrderDto : CreateOrderDto.t)
    : M OrderWithProducts.t :=
  try_catch (create_body createOrderDto)
    (fun error => throw (RpcException BAD_REQUEST (message error))).

Definition findAll (orderPaginationDto : OrderPaginationDto.t) : M Page.t :=
  totalPages <- Prisma.order_count
                  (OrderPaginationDto.status orderPaginationDto) ;;
  let currentPage := OrderPaginationDto.page orderPaginationDto in
  let perPage := OrderPaginationDto.limit orderPaginationDto in
  data <- Prisma.order_findMany ((currentPage - 1) * perPage) perPage
            (OrderPaginationDto.status orderPaginationDto) ;;
  ret (Page.mk data
         (Meta.mk totalPages currentPage
            (Math_ceil (inject_Z totalPages / inject_Z perPage)%Q))).

Definition notFoundMessage (id : string) : string :=
  ("Order with id " ++ id ++ " not found")%string.

Definition findOne (id : string) : M OrderWithProducts.t :=
  found <- Prisma.order_findFirst id ;;
  match found with
  | None => throw (RpcException NOT_FOUND (notFoundMessage id))
  | Some order =>
      let productIds :=
        map OrderItem.productId (OrderWithItems.OrderItem order) in
      products <- send_validate_products productIds ;;
      OrderItem <- mapM (withName products) (OrderWithItems.OrderItem order) ;;
      ret (OrderWithProducts.mk (OrderWithItems.order order) OrderItem)
  end.

Definition changeStatus (changeOrderStatusDto : ChangeOrderStatusDto.t)
    : M Order.t :=
  let id := ChangeOrderStatusDto.id changeOrderStatusDto in
  let status := ChangeOrderStatusDto.status changeOrderStatusDto in
  order <- findOne id ;;
  Prisma.order_update id (setStatus status) None.

Definition paymentItem (item : NamedItem.t) : PaymentItem.t :=
  PaymentItem.mk (NamedItem.name item)
    (OrderItem.price (NamedItem.item item))
    (OrderItem.quantity (NamedItem.item item)).

Definition paymentSessionRequest (order : OrderWithProducts.t)
    : PaymentSessionRequest.t :=
  PaymentSessionRequest.mk (Order.id (OrderWithProducts.order order)) "usd"
    (map paymentItem (OrderWithProducts.OrderItem order)).

Definition createPaymentSession (order : OrderWithProducts.t) : M Session :=
  paymentSession <- send_create_payment_session
                      (paymentSessionRequest order) ;;
  ret paymentSession.

Definition paidOrder (paidOrderDto : PaidOrderDto.t) : M Order.t :=
  logger_log "Order Paid" ;;;
  order <- Prisma.order_update (PaidOrderDto.orderId paidOrderDto)
             (setPaid now (PaidOrderDto.stripePaymentId paidOrderDto))
             (Some (PaidOrderDto.receiptUrl paidOrderDto)) ;;
  ret order.

End OrdersService.

(** * Properties *)

(** ** Reference quantities

    The totals as the specification words them: sums over the line items
    of the request. *)

Definition unitPrice (products : list Product.t) (productId : string) : Z :=
  match findProduct products productId with
  | Some product => Product.price product
  | None => 0
  end.

Definition productName (products : list Product.t) (productId : string)
    : string :=
  match findProduct products productId with
  | Some product => Product.name product
  | None => ""
  end.

(** Sum over the items of unit price times quantity. *)
Fixpoint sumAmounts (products : list Product.t) (items : list OrderItemDto.t)
    : Z :=
  match items with
  | [] => 0
  | item :: items' =>
      unitPrice products (OrderItemDto.productId item)
      * OrderItemDto.quantity item
      + sumAmounts products items'
  end.

(** Sum over the items of the quantity. *)
Fixpoint sumQuantities (items : list OrderItemDto.t) : Z :=
  match items with
  | [] => 0
  | item :: items' => OrderItemDto.quantity item + sumQuantities items'
  end.

(** What the first [reduce] of [create] leaves in [totalAmount] when no
    lookup fails: the amount of the item visited last, or the initial
    value when there is no item. *)
Fixpoint lastAmount (products : list Product.t) (items : list OrderItemDto.t)
    (init : Z) : Z :=
  match items with
  | [] => init
  | item :: items' =>
      lastAmount products items'
        (unitPrice products (OrderItemDto.productId item)
         * OrderItemDto.quantity item)
  end.

Definition itemOf (products : list Product.t) (item : OrderItemDto.t)
    : OrderItem.t :=
  OrderItem.mk (OrderItemDto.productId item) (OrderItemDto.quantity item)
    (unitPrice products (OrderItemDto.productId item)).

Definition namedOf (products : list Product.t) (item : OrderItem.t)
    : NamedItem.t :=
  NamedItem.mk item (productName products (OrderItem.productId item)).

(** Every item of the request names a product of the reply. *)
Definition allKnown (products : list Product.t) (items : list OrderItemDto.t)
    : Prop :=
  forall item, In item items ->
    In (OrderItemDto.productId item) (map Product.id products).

(** The messages a computation has handed to the client when it ends. *)
Definition sentBy {A} (m : M A) (w : World.t) : list Message :=
  World.sent (snd (m w)).

(** The validator is sent the set of distinct product ids of the request:
    one message whose payload has no duplicate and holds exactly the ids
    the items reference. *)
Definition sendsDistinctProductIds {Session} (client : ClientProxy.t Session)
    (uuid : string) (createOrderDto : CreateOrderDto.t) (w : World.t)
    : Prop :=
  exists productIds,
    sentBy (create client uuid createOrderDto) w
    = World.sent w ++ [validate_products productIds]
    /\ NoDup productIds
    /\ (forall productId,
          In productId productIds <->
          In productId
            (map OrderItemDto.productId
               (CreateOrderDto.items createOrderDto))).

(** The payment confirmation goes through: the order is returned with
    status PAID, paid, a payment date and the charge reference, its totals
    as they were, and one receipt row with the url has been added. *)
Definition confirmsPayment (now : Z) (paidOrderDto : PaidOrderDto.t)
    (w : World.t) (o : Order.t) : Prop :=
  exists o' w',
    paidOrder now paidOrderDto w = (Ok o', w')
    /\ Order.status o' = PAID
    /\ Order.paid o' = true
    /\ Order.paidAt o' <> None
    /\ Order.stripeChargeId o'
       = Some (PaidOrderDto.stripePaymentId paidOrderDto)
    /\ Order.totalAmount o' = Order.totalAmount o
    /\ Order.totalItems o' = Order.totalItems o
    /\ Db.orderItem (World.db w') = Db.orderItem (World.db w)
    /\ Db.orderReceipt (World.db w')
       = Db.orderReceipt (World.db w)
         ++ [OrderReceipt.mk (PaidOrderDto.orderId paidOrderDto)
               (PaidOrderDto.receiptUrl paidOrderDto)].

(** ** Fixtures: the example of section 8 of the specification *)

Module Example.

Definition products : list Product.t :=
  [Product.mk "p1" "A" 10; Product.mk "p2" "B" 5].

Definition client : ClientProxy.t unit :=
  ClientProxy.mk (fun _ => Ok products) (fun _ => Ok tt).

Definition offline : ClientProxy.t unit :=
  ClientProxy.mk (fun _ => Throw (RemoteError "Empty response"))
    (fun _ => Throw (RemoteError "Empty response")).

Definition dto : CreateOrderDto.t :=
  CreateOrderDto.mk [OrderItemDto.mk "p1" 2; OrderItemDto.mk "p2" 1].

Definition unknownDto : CreateOrderDto.t :=
  CreateOrderDto.mk [OrderItemDto.mk "p1" 2; OrderItemDto.mk "p9" 1].

Definition repeatedDto : CreateOrderDto.t :=
  CreateOrderDto.mk [OrderItemDto.mk "p1" 1; OrderItemDto.mk "p1" 2].

Definition empty : World.t := World.mk (Db.mk [] [] []) [] [].

Definition stored : Order.t := Order.mk "o1" 5 3 PENDING false None None.

Definition world : World.t :=
  World.mk
    (Db.mk [stored]
       [OrderItemRow.mk "o1" (OrderItem.mk "p1" 2 10);
        OrderItemRow.mk "o1" (OrderItem.mk "p2" 1 5)]
       [])
    [] [].

(** Fifteen pending orders, "A" to "O". *)
Definition fifteen : World.t :=
  World.mk
    (Db.mk
       (map (fun n =>
               Order.mk (String (Ascii.ascii_of_nat (65 + n)) EmptyString)
                 10 1 PENDING false None None)
          (seq 0 15))
       [] [])
    [] [].

(** The stored order once its payment has been confirmed. *)
Definition paid : World.t :=
  World.mk
    (Db.mk [Order.mk "o1" 5 3 PAID true (Some 1) (Some "ch_1")]
       [OrderItemRow.mk "o1" (OrderItem.mk "p1" 2 10);
        OrderItemRow.mk "o1" (OrderItem.mk "p2" 1 5)]
       [OrderReceipt.mk "o1" "https://r/1"])
    [] ["Order Paid"].

End Example.

(** ** Runs of the service

    A call of one public method, with the values the environment hands it:
    the replies of the remote services (they may differ from one call to
    the next), the identifier drawn for a new row, the instant of the
    call. *)
Inductive Call (Session : Type) : Type :=
| CallCreate (client : ClientProxy.t Session) (uuid : string)
    (createOrderDto : CreateOrderDto.t)
| CallFindAll (orderPaginationDto : OrderPaginationDto.t)
| CallFindOne (client : ClientProxy.t Session) (id : string)
| CallChangeStatus (client : ClientProxy.t Session)
    (changeOrderStatusDto : ChangeOrderStatusDto.t)
| CallCreatePaymentSession (client : ClientProxy.t Session)
    (order : OrderWithProducts.t)
| CallPaidOrder (now : Z) (paidOrderDto : PaidOrderDto.t).
Arguments CallFindAll {Session} orderPaginationDto.
Arguments CallPaidOrder {Session} now paidOrderDto.

(** The world a computation leaves, whether it returns or throws. *)
Definition after {A} (m : M A) (w : World.t) : World.t := snd (m w).

Definition runCall {Session} (call : Call Session) (w : World.t) : World.t :=
  match call with
  | CallCreate client uuid dto => after (create client uuid dto) w
  | CallFindAll dto => after (findAll dto) w
  | CallFindOne client id => after (findOne client id) w
  | CallChangeStatus client dto => after (changeStatus client dto) w
  | CallCreatePaymentSession client order =>
      after (createPaymentSession client order) w
  | CallPaidOrder now dto => after (paidOrder now dto) w
  end.

(** The calls of a list, one after the other. *)
Definition runCalls {Session} (calls : list (Call Session)) (w : World.t)
    : World.t :=
  fold_left (fun w' call => runCall call w') calls w.

(** Sum of the quantities of stored items. *)
Fixpoint sumItemQuantities (items : list OrderItem.t) : Z :=
  match items with
  | [] => 0
  | item :: items' => OrderItem.quantity item + sumItemQuantities items'
  end.

(** The ways one call can change the database: not at all, by the insert
    of [create], by the update of [changeStatus] or by the update of
    [paidOrder]. *)
Inductive DbStep (d : Db.t) : Db.t -> Prop :=
| step_none : DbStep d d
| step_create (uuid : string) (totalAmount : Z) (data : list OrderItem.t) :
    Prisma.lookup uuid d = None ->
    DbStep d
      (Db.mk
         (Db.order d
          ++ [Prisma.newOrder uuid totalAmount (sumItemQuantities data)])
         (Db.orderItem d ++ map (OrderItemRow.mk uuid) data)
         (Db.orderReceipt d))
| step_status (id : string) (status : OrderStatus) (o : Order.t) :
    Prisma.lookup id d = Some o ->
    DbStep d
      (Db.mk (Prisma.updateRow id (setStatus status) (Db.order d))
         (Db.orderItem d) (Db.orderReceipt d))
| step_paid (id : string) (paidAt : Z) (stripeChargeId receiptUrl : string)
    (o : Order.t) :
    Prisma.lookup id d = Some o ->
    DbStep d
      (Db.mk (Prisma.updateRow id (setPaid paidAt stripeChargeId) (Db.order d))
         (Db.orderItem d)
         (Db.orderReceipt d ++ [OrderReceipt.mk id receiptUrl])).

Definition orderIds (d : Db.t) : list string := map Order.id (Db.order d).

(** What the tables satisfy together. *)
Record Consistent (d : Db.t) : Prop := mkConsistent {
  ids_unique : NoDup (orderIds d);
  items_owned :
    forall r, In r (Db.orderItem d) ->
      In (OrderItemRow.orderId r) (orderIds d);
  receipts_owned :
    forall r, In r (Db.orderReceipt d) ->
      exists o, In o (Db.order d)
        /\ Order.id o = OrderReceipt.orderId r /\ Order.paid o = true;
  paid_has_receipt :
    forall o, In o (Db.order d) -> Order.paid o = true ->
      exists r, In r (Db.orderReceipt d)
        /\ OrderReceipt.orderId r = Order.id o;
  paid_fields :
    forall o, In o (Db.order d) ->
      (Order.paid o = true <-> Order.paidAt o <> None)
      /\ (Order.paid o = true <-> Order.stripeChargeId o <> None)
}.

(** Every stored order counts the quantities of its own item rows. *)
Definition TotalsMatch (d : Db.t) : Prop :=
  forall o, In o (Db.order d) ->
    Order.totalItems o = sumItemQuantities (Prisma.itemsOf (Order.id o) d).

(** What a later store [d'] keeps of the order [o] that [d] holds under
    [id]: the order is still found, with its totals and its item rows; it
    is still paid if it was; its receipts are still there, before any
    later one. *)
Definition KeptBy (d d' : Db.t) (id : string) (o o' : Order.t) : Prop :=
  Prisma.lookup id d' = Some o'
  /\ Order.totalAmount o' = Order.totalAmount o
  /\ Order.totalItems o' = Order.totalItems o
  /\ Prisma.itemsOf id d' = Prisma.itemsOf id d
  /\ (Order.paid o = true -> Order.paid o' = true)
  /\ (exists later,
        Prisma.receiptsOf id d' = Prisma.receiptsOf id d ++ later).

(** The rows of an outcome of [findAll]; none when it threw. *)
Definition dataOf (outcome : Result Page.t * World.t) : list Order.t :=
  match fst outcome with
  | Ok page => Page.data page
  | Throw _ => []
  end.

(** The rows of pages 1 to [n], page after page. *)
Definition pagesUpTo (status : option OrderStatus) (limit : Z) (n : nat)
    (w : World.t) : list Order.t :=
  flat_map
    (fun p =>
       dataOf (findAll (OrderPaginationDto.mk status (Z.of_nat p) limit) w))
    (seq 1 n).

(** ** Lemmas on the building blocks *)

Lemma findProduct_absent (products : list Product.t) (productId : string) :
  findProduct products productId = None <->
  ~ In productId (map Product.id products).
Proof.
  unfold findProduct.
  induction products as [|p ps IH]; simpl.
  - tauto.
  - destruct (String.eqb_spec (Product.id p) productId) as [E|E].
    + split; [discriminate | intros H; exfalso; apply H; now left].
    + rewrite IH. tauto.
Qed.

Lemma findProduct_known (products : list Product.t) (productId : string) :
  In productId (map Product.id products) ->
  exists product, findProduct products productId = Some product.
Proof.
  intros H.
  destruct (findProduct products productId) as [p|] eqn:E.
  - now exists p.
  - apply findProduct_absent in E. contradiction.
Qed.

Lemma dot_price_known (products : list Product.t) (productId : string)
    (w : World.t) :
  In productId (map Product.id products) ->
  dot_price (findProduct products productId) w
  = (Ok (unitPrice products productId), w).
Proof.
  intros H. unfold unitPrice.
  destruct (findProduct_known _ _ H) as [p ->]. reflexivity.
Qed.

Lemma dot_name_known (products : list Product.t) (productId : string)
    (w : World.t) :
  In productId (map Product.id products) ->
  dot_name (findProduct products productId) w
  = (Ok (productName products productId), w).
Proof.
  intros H. unfold productName.
  destruct (findProduct_known _ _ H) as [p ->]. reflexivity.
Qed.

(** A traversal whose callback succeeds without touching the world is a
    plain [map]. *)
Lemma mapM_pure {A B} (f : A -> M B) (g : A -> B) (xs : list A)
    (w : World.t) :
  (forall x, In x xs -> f x w = (Ok (g x), w)) ->
  mapM f xs w = (Ok (map g xs), w).
Proof.
  induction xs as [|x xs IH]; intros H; simpl.
  - reflexivity.
  - unfold bind. rewrite (H x (or_introl eq_refl)).
    rewrite IH by (intros y Hy; apply H; now right).
    reflexivity.
Qed.

Lemma fold_left_totalItemsStep (items : list OrderItemDto.t) (acc : Z) :
  fold_left totalItemsStep items acc = acc + sumQuantities items.
Proof.
  revert acc.
  induction items as [|item items IH]; intros acc; simpl.
  - lia.
  - rewrite IH. unfold totalItemsStep. lia.
Qed.

Lemma reduceM_totalAmountStep (products : list Product.t)
    (items : list OrderItemDto.t) (init : Z) (w : World.t) :
  allKnown products items ->
  reduceM (totalAmountStep products) items init w
  = (Ok (lastAmount products items init), w).
Proof.
  revert init.
  induction items as [|item items IH]; intros init H; simpl.
  - reflexivity.
  - unfold bind at 1. unfold totalAmountStep at 1. unfold bind at 1.
    rewrite dot_price_known by (apply H; now left).
    simpl. apply IH. intros i Hi. apply H. now right.
Qed.

(** The first unknown product id met by the reduction stops it with the
    [TypeError] of reading [.price] of [undefined]. *)
Lemma reduceM_totalAmountStep_unknown (products : list Product.t)
    (items : list OrderItemDto.t) (init : Z) (w : World.t) :
  (exists item, In item items /\
     ~ In (OrderItemDto.productId item) (map Product.id products)) ->
  reduceM (totalAmountStep products) items init w
  = (Throw (TypeError "Cannot read properties of undefined (reading 'price')"),
     w).
Proof.
  revert init.
  induction items as [|item items IH]; intros init [bad [Hin Hbad]].
  - destruct Hin.
  - simpl. unfold bind at 1. unfold totalAmountStep at 1. unfold bind at 1.
    destruct (findProduct products (OrderItemDto.productId item)) as [p|] eqn:E.
    + simpl. apply IH. exists bad. split; [|exact Hbad].
      destruct Hin as [<-|Hin]; [|exact Hin].
      apply findProduct_absent in Hbad. congruence.
    + reflexivity.
Qed.

Lemma mapM_itemData (products : list Product.t) (items : list OrderItemDto.t)
    (w : World.t) :
  allKnown products items ->
  mapM (itemData products) items w = (Ok (map (itemOf products) items), w).
Proof.
  intros H. apply mapM_pure. intros item Hin.
  unfold itemData, bind. rewrite dot_price_known by (now apply H).
  reflexivity.
Qed.

Lemma mapM_withName (products : list Product.t) (items : list OrderItem.t)
    (w : World.t) :
  (forall item, In item items ->
     In (OrderItem.productId item) (map Product.id products)) ->
  mapM (withName products) items w = (Ok (map (namedOf products) items), w).
Proof.
  intros H. apply mapM_pure. intros item Hin.
  unfold withName, bind. rewrite dot_name_known by (now apply H).
  reflexivity.
Qed.

(** ** [create] *)

Section Create.

Variable Session : Type.
Variable client : ClientProxy.t Session.
Variable uuid : string.
Variable createOrderDto : CreateOrderDto.t.
Variable w : World.t.

(** The run of [create] when the validator knows every product and the
    new identifier is free: the order row, its item rows and the enriched
    result, with the single message sent. *)
Lemma create_ok (products : list Product.t) :
  let items := CreateOrderDto.items createOrderDto in
  let productIds := map OrderItemDto.productId items in
  ClientProxy.validateProducts client productIds = Ok products ->
  allKnown products items ->
  Prisma.lookup uuid (World.db w) = None ->
  let o := Prisma.newOrder uuid (lastAmount products items 0)
             (sumQuantities items) in
  let data := map (itemOf products) items in
  create client uuid createOrderDto w
  = (Ok (OrderWithProducts.mk o (map (namedOf products) data)),
     World.mk
       (Db.mk (Db.order (World.db w) ++ [o])
          (Db.orderItem (World.db w) ++ map (OrderItemRow.mk uuid) data)
          (Db.orderReceipt (World.db w)))
       (World.sent w ++ [validate_products productIds])
       (World.log w)).
Proof.
  intros items productIds Hreply Hknown Hfree o data.
  unfold create, try_catch, create_body.
  fold items. fold productIds.
  unfold bind at 1. unfold send_validate_products at 1. rewrite Hreply.
  unfold bind at 1. rewrite reduceM_totalAmountStep by exact Hknown.
  unfold bind at 1. rewrite mapM_itemData by exact Hknown.
  unfold bind at 1. unfold Prisma.order_create at 1.
  cbn [emit World.db]. rewrite Hfree.
  rewrite fold_left_totalItemsStep, Z.add_0_l.
  cbn [OrderWithItems.OrderItem OrderWithItems.order].
  unfold bind at 1. rewrite mapM_withName.
  - reflexivity.
  - intros item Hin. apply in_map_iff in Hin.
    destruct Hin as [i [<- Hi]]. simpl. now apply Hknown.
Qed.

(** The run of [create] when the identifier drawn for the new row is
    already taken: the insert is refused and nothing is written. *)
Lemma create_taken (products : list Product.t) (o : Order.t) :
  let items := CreateOrderDto.items createOrderDto in
  let productIds := map OrderItemDto.productId items in
  ClientProxy.validateProducts client productIds = Ok products ->
  allKnown products items ->
  Prisma.lookup uuid (World.db w) = Some o ->
  create client uuid createOrderDto w
  = (Throw (RpcException BAD_REQUEST
              "Unique constraint failed on the fields: (`id`)"),
     emit (validate_products productIds) w).
Proof.
  intros items productIds Hreply Hknown Htaken.
  unfold create, try_catch, create_body.
  fold items. fold productIds.
  unfold bind at 1. unfold send_validate_products at 1. rewrite Hreply.
  unfold bind at 1. rewrite reduceM_totalAmountStep by exact Hknown.
  unfold bind at 1. rewrite mapM_itemData by exact Hknown.
  unfold bind at 1. unfold Prisma.order_create at 1.
  cbn [emit World.db]. rewrite Htaken. reflexivity.
Qed.

(** The run of [create] when the validator call fails. *)
Lemma create_validator_down (error : Exception) :
  let items := CreateOrderDto.items createOrderDto in
  let productIds := map OrderItemDto.productId items in
  ClientProxy.validateProducts client productIds = Throw error ->
  create client uuid createOrderDto w
  = (Throw (RpcException BAD_REQUEST (message error)),
     emit (validate_products productIds) w).
Proof.
  intros items productIds Hreply.
  unfold create, try_catch, create_body.
  fold items. fold productIds.
  unfold bind at 1. unfold send_validate_products at 1. rewrite Hreply.
  reflexivity.
Qed.

(** The run of [create] when the reply lacks a requested product. *)
Lemma create_unknown_product (products : list Product.t) :
  let items := CreateOrderDto.items createOrderDto in
  let productIds := map OrderItemDto.productId items in
  ClientProxy.validateProducts client productIds = Ok products ->
  (exists item, In item items /\
     ~ In (OrderItemDto.productId item) (map Product.id products)) ->
  create client uuid createOrderDto w
  = (Throw (RpcException BAD_REQUEST
              "Cannot read properties of undefined (reading 'price')"),
     emit (validate_products productIds) w).
Proof.
  intros items productIds Hreply Hbad.
  unfold create, try_catch, create_body.
  fold items. fold productIds.
  unfold bind at 1. unfold send_validate_products at 1. rewrite Hreply.
  unfold bind at 1. rewrite reduceM_totalAmountStep_unknown by exact Hbad.
  reflexivity.
Qed.

End Create.

(** C1. The claim - the persisted [totalAmount] is the sum over the line
    items of unit price times quantity, 25 on the example of the
    specification - does not hold of the code: on that very example
    [create] succeeds and persists [totalAmount = 5], the amount of the
    last item alone, while the sum is 25.  The callback of the reduction
    returns [price * quantity] without adding the accumulator. *)
Theorem create_totalAmount_example :
  exists order w',
    create Example.client "o1" Example.dto Example.empty = (Ok order, w')
    /\ Db.order (World.db w') = [OrderWithProducts.order order]
    /\ Order.totalAmount (OrderWithProducts.order order) = 5
    /\ sumAmounts Example.products (CreateOrderDto.items Example.dto) = 25.
Proof.
  eexists. eexists. repeat split.
Qed.

(** C7. When the validator's reply holds every product id of the request,
    the order that [create] persists has [totalItems] equal to the sum of
    the quantities of the line items: [create] succeeds whenever the
    identifier drawn for the row is free, and whatever order it returns is
    the row appended to the table, with that sum. *)
Theorem create_totalItems (Session : Type) (client : ClientProxy.t Session)
    (uuid : string) (createOrderDto : CreateOrderDto.t) (w : World.t)
    (products : list Product.t) :
  let items := CreateOrderDto.items createOrderDto in
  ClientProxy.validateProducts client (map OrderItemDto.productId items)
  = Ok products ->
  allKnown products items ->
  (Prisma.lookup uuid (World.db w) = None ->
   exists order w', create client uuid createOrderDto w = (Ok order, w'))
  /\
  (forall order w',
     create client uuid createOrderDto w = (Ok order, w') ->
     Order.totalItems (OrderWithProducts.order order) = sumQuantities items
     /\ Db.order (World.db w')
        = Db.order (World.db w) ++ [OrderWithProducts.order order]).
Proof.
  intros items Hreply Hknown. split.
  - intros Hfree. do 2 eexists.
    apply (create_ok client uuid createOrderDto w Hreply Hknown Hfree).
  - intros order w' Hrun.
    destruct (Prisma.lookup uuid (World.db w)) as [o|] eqn:Hlookup.
    + rewrite (create_taken client uuid createOrderDto w Hreply Hknown Hlookup)
        in Hrun.
      discriminate.
    + rewrite (create_ok client uuid createOrderDto w Hreply Hknown Hlookup)
        in Hrun.
      injection Hrun as <- <-. split; reflexivity.
Qed.

Lemma create_totalItems_witness :
  exists order w',
    create Example.client "o1" Example.dto Example.empty = (Ok order, w')
    /\ Order.totalItems (OrderWithProducts.order order) = 3.
Proof.
  assert (Hknown : allKnown Example.products
                     (CreateOrderDto.items Example.dto)).
  { intros item [<-|[<-|[]]]; simpl; tauto. }
  destruct (create_totalItems Example.client "o1" Example.dto Example.empty
              eq_refl Hknown) as [Hruns Hsum].
  destruct (Hruns eq_refl) as [order [w' Hrun]].
  exists order, w'. split; [exact Hrun|].
  destruct (Hsum order w' Hrun) as [-> _]. reflexivity.
Defined.

(** C2. When the validator call fails, or its reply lacks the product id
    of at least one item, [create] writes nothing - the database is the
    one it started from, with no order row and no item row added - and
    throws one [RpcException] of status BAD_REQUEST whose message is the
    message of the underlying error: the remote error in the first case,
    the [TypeError] of reading [.price] of [undefined] in the second. *)
Theorem create_rejects_atomically (Session : Type)
    (client : ClientProxy.t Session) (uuid : string)
    (createOrderDto : CreateOrderDto.t) (w : World.t) :
  let items := CreateOrderDto.items createOrderDto in
  let reply :=
    ClientProxy.validateProducts client (map OrderItemDto.productId items) in
  (exists error, reply = Throw error)
  \/ (exists products, reply = Ok products /\
        exists item, In item items /\
          ~ In (OrderItemDto.productId item) (map Product.id products)) ->
  exists msg w',
    create client uuid createOrderDto w
    = (Throw (RpcException BAD_REQUEST msg), w')
    /\ World.db w' = World.db w
    /\ (forall error, reply = Throw error -> msg = message error)
    /\ (forall products, reply = Ok products ->
          msg = message
                  (TypeError
                     "Cannot read properties of undefined (reading 'price')")).
Proof.
  intros items reply [[error Hreply]|[products [Hreply Hbad]]].
  - exists (message error). eexists. split.
    + apply create_validator_down. exact Hreply.
    + split; [reflexivity|]. split.
      * intros error' H. fold reply in H. congruence.
      * intros products H. fold reply in H. congruence.
  - eexists. eexists. split.
    + apply create_unknown_product with (products := products);
        [exact Hreply | exact Hbad].
    + split; [reflexivity|]. split.
      * intros error H. congruence.
      * intros products' H. reflexivity.
Qed.

Lemma create_rejects_atomically_witness :
  exists msg w',
    create Example.client "o1" Example.unknownDto Example.world
    = (Throw (RpcException BAD_REQUEST msg), w')
    /\ World.db w' = World.db Example.world.
Proof.
  destruct (create_rejects_atomically Example.client "o1" Example.unknownDto
              Example.world) as [msg [w' [Hrun [Hdb _]]]].
  - right. exists Example.products. split; [reflexivity|].
    exists (OrderItemDto.mk "p9" 1). split.
    + simpl. tauto.
    + simpl. intros [H|[H|[]]]; discriminate H.
  - exists msg, w'. split; assumption.
Defined.

(** ** [findAll] *)

(** [Math.ceil (a / b)] on integers, in integer arithmetic. *)
Lemma Math_ceil_div (a b : Z) :
  Math_ceil (inject_Z a / inject_Z b)%Q = - ((- a) / b).
Proof.
  unfold Math_ceil, Qceiling. f_equal.
  rewrite Zdiv_Qdiv. apply Qfloor_comp.
  rewrite inject_Z_opp. unfold Qdiv. ring.
Qed.

(** [Math.ceil (a / b)] is the least [n] with [a <= n * b]. *)
Lemma Math_ceil_least (a b : Z) :
  0 < b ->
  let n := Math_ceil (inject_Z a / inject_Z b)%Q in
  a <= n * b /\ (n - 1) * b < a.
Proof.
  intros Hb n. subst n. rewrite Math_ceil_div.
  pose proof (Z.div_mod (- a) b ltac:(lia)) as Hdiv.
  pose proof (Z.mod_pos_bound (- a) b Hb) as Hmod.
  nia.
Qed.

(** C3. For page >= 1 and limit >= 1, with T rows matching the filter,
    [findAll] raises no error, leaves the world as it is and returns the
    rows at offset (page - 1) * limit, at most limit of them, with
    meta.total = T, meta.page = page and meta.lastPage = ceil (T / limit),
    the least n with T <= n * limit; beyond the last page the data list is
    empty and the metadata is the same. *)
Theorem findAll_page (orderPaginationDto : OrderPaginationDto.t)
    (w : World.t) :
  let status := OrderPaginationDto.status orderPaginationDto in
  let page := OrderPaginationDto.page orderPaginationDto in
  let limit := OrderPaginationDto.limit orderPaginationDto in
  let rows := filter (Prisma.hasStatus status) (Db.order (World.db w)) in
  let T := Z.of_nat (List.length rows) in
  1 <= page -> 1 <= limit ->
  exists data lastPage,
    findAll orderPaginationDto w
    = (Ok (Page.mk data (Meta.mk T page lastPage)), w)
    /\ data = firstn (Z.to_nat limit)
                (skipn (Z.to_nat ((page - 1) * limit)) rows)
    /\ Z.of_nat (List.length data) <= limit
    /\ lastPage = Math_ceil (inject_Z T / inject_Z limit)%Q
    /\ T <= lastPage * limit /\ (lastPage - 1) * limit < T
    /\ (lastPage < page -> data = []).
Proof.
  intros status page limit rows T Hpage Hlimit.
  do 2 eexists. split; [|split; [reflexivity|]].
  - unfold findAll, bind, Prisma.order_count, Prisma.order_findMany, ret.
    fold status. fold page. fold limit. fold rows. fold T.
    replace ((page - 1) * limit <? 0) with false by (symmetry; apply Z.ltb_ge; nia).
    replace (limit <? 0) with false by (symmetry; apply Z.ltb_ge; lia).
    reflexivity.
  - destruct (Math_ceil_least T (b := limit) ltac:(lia)) as [Hup Hlow].
    split; [|split; [reflexivity|split; [exact Hup|split; [exact Hlow|]]]].
    + pose proof (firstn_le_length (Z.to_nat limit)
                    (skipn (Z.to_nat ((page - 1) * limit)) rows)).
      lia.
    + intros Hbeyond.
      rewrite skipn_all2; [now rewrite firstn_nil|].
      subst T. nia.
Qed.

(** The second example of section 8 of the specification: 15 matching
    rows, page 2 of size 10. *)
Example findAll_fifteen :
  exists data,
    findAll (OrderPaginationDto.mk (Some PENDING) 2 10) Example.fifteen
    = (Ok (Page.mk data (Meta.mk 15 2 2)), Example.fifteen)
    /\ List.length data = 5%nat.
Proof.
  eexists. split; [vm_compute; reflexivity | reflexivity].
Qed.

Lemma findAll_page_witness :
  exists data lastPage,
    findAll (OrderPaginationDto.mk (Some PENDING) 2 10) Example.world
    = (Ok (Page.mk data (Meta.mk 1 2 lastPage)), Example.world)
    /\ data = [] /\ lastPage = 1.
Proof.
  destruct (findAll_page (OrderPaginationDto.mk (Some PENDING) 2 10)
              Example.world)
    as [data [lastPage [Hrun [Hdata [_ [Hlast _]]]]]]; [simpl; lia..|].
  exists data, lastPage. split; [exact Hrun|]. split.
  - rewrite Hdata. reflexivity.
  - rewrite Hlast. reflexivity.
Defined.

(** ** [paidOrder] *)

Lemma find_updateRow_same (id : string) (data : Order.t -> Order.t)
    (rows : list Order.t) (o : Order.t) :
  (forall o', Order.id (data o') = Order.id o') ->
  find (Prisma.hasId id) rows = Some o ->
  find (Prisma.hasId id) (Prisma.updateRow id data rows) = Some (data o).
Proof.
  intros Hid.
  induction rows as [|r rows IH]; simpl; [discriminate|].
  destruct (Prisma.hasId id r) eqn:E; intros H.
  - injection H as <-. simpl.
    unfold Prisma.hasId in *. rewrite Hid, E. reflexivity.
  - simpl. rewrite E. now apply IH.
Qed.

Lemma find_updateRow_other (id id' : string) (data : Order.t -> Order.t)
    (rows : list Order.t) :
  (forall o', Order.id (data o') = Order.id o') ->
  id' <> id ->
  find (Prisma.hasId id') (Prisma.updateRow id data rows)
  = find (Prisma.hasId id') rows.
Proof.
  intros Hid Hne.
  induction rows as [|r rows IH]; simpl; [reflexivity|].
  destruct (Prisma.hasId id r) eqn:E; simpl.
  - unfold Prisma.hasId in *. rewrite Hid.
    apply String.eqb_eq in E.
    destruct (String.eqb_spec (Order.id r) id') as [E'|E']; [congruence|].
    reflexivity.
  - destruct (Prisma.hasId id' r); [reflexivity | exact IH].
Qed.

Lemma updateRow_length (id : string) (data : Order.t -> Order.t)
    (rows : list Order.t) :
  List.length (Prisma.updateRow id data rows) = List.length rows.
Proof.
  induction rows as [|r rows IH]; simpl; [reflexivity|].
  destruct (Prisma.hasId id r); simpl; congruence.
Qed.

(** The run of [paidOrder] on an order of the store that has no receipt
    yet. *)
Lemma paidOrder_ok (now : Z) (paidOrderDto : PaidOrderDto.t) (w : World.t)
    (o : Order.t) :
  let id := PaidOrderDto.orderId paidOrderDto in
  let data := setPaid now (PaidOrderDto.stripePaymentId paidOrderDto) in
  Prisma.lookup id (World.db w) = Some o ->
  Prisma.receiptsOf id (World.db w) = [] ->
  paidOrder now paidOrderDto w
  = (Ok (data o),
     World.mk
       (Db.mk (Prisma.updateRow id data (Db.order (World.db w)))
          (Db.orderItem (World.db w))
          (Db.orderReceipt (World.db w)
           ++ [OrderReceipt.mk id (PaidOrderDto.receiptUrl paidOrderDto)]))
       (World.sent w)
       (World.log w ++ ["Order Paid"])).
Proof.
  intros id data Hfound Hfirst.
  unfold paidOrder, bind, logger_log, Prisma.order_update,
    Prisma.orderReceipt_create.
  cbn [World.db World.sent World.log]. fold id. rewrite Hfound, Hfirst.
  reflexivity.
Qed.

(** The run of [paidOrder] on an order of the store that already has a
    receipt: the nested insert is refused and with it the whole update. *)
Lemma paidOrder_refused (now : Z) (paidOrderDto : PaidOrderDto.t)
    (w : World.t) (o : Order.t) :
  let id := PaidOrderDto.orderId paidOrderDto in
  Prisma.lookup id (World.db w) = Some o ->
  Prisma.receiptsOf id (World.db w) <> [] ->
  paidOrder now paidOrderDto w
  = (Throw (PrismaClientKnownRequestError "P2002"
              "Unique constraint failed on the fields: (`orderId`)"),
     World.mk (World.db w) (World.sent w) (World.log w ++ ["Order Paid"])).
Proof.
  intros id Hfound Hagain.
  unfold paidOrder, bind, logger_log, Prisma.order_update,
    Prisma.orderReceipt_create.
  cbn [World.db World.sent World.log]. fold id. rewrite Hfound.
  destruct (Prisma.receiptsOf id (World.db w)); [congruence | reflexivity].
Qed.

(** C4, as worded, fails: an order of the store whose payment has already
    been confirmed has a receipt, and a second confirmation does not go
    through - no second receipt is created and the order is not
    updated. *)
Lemma paidOrder_second_confirmation :
  Prisma.lookup "o1" (World.db Example.paid)
  = Some (Order.mk "o1" 5 3 PAID true (Some 1) (Some "ch_1"))
  /\ ~ confirmsPayment 2 (PaidOrderDto.mk "o1" "ch_2" "https://r/2")
         Example.paid (Order.mk "o1" 5 3 PAID true (Some 1) (Some "ch_1")).
Proof.
  split; [reflexivity|].
  intros [o' [w' [Hrun _]]].
  vm_compute in Hrun. discriminate Hrun.
Qed.

(** C4, amended. For an order of the store that has no receipt yet,
    [paidOrder] succeeds with one update: the order's row gets status
    PAID, paid = true, a non-null paidAt (the instant of the call) and
    stripeChargeId = stripePaymentId; exactly one receipt row, holding
    receiptUrl for that order, is added; totalAmount, totalItems and the
    identifier of the order, its line items, the other orders and the item
    table are left as they were.  For an order that already has a receipt
    the update is refused as a whole: [paidOrder] throws the repository's
    error and the database is left as it was. *)
Theorem paidOrder_marks_paid (now : Z) (paidOrderDto : PaidOrderDto.t)
    (w : World.t) (o : Order.t) :
  let id := PaidOrderDto.orderId paidOrderDto in
  Prisma.lookup id (World.db w) = Some o ->
  (Prisma.receiptsOf id (World.db w) = [] ->
   exists o' w',
     paidOrder now paidOrderDto w = (Ok o', w')
     /\ Prisma.lookup id (World.db w') = Some o'
     /\ Order.status o' = PAID
     /\ Order.paid o' = true
     /\ Order.paidAt o' = Some now
     /\ Order.stripeChargeId o'
        = Some (PaidOrderDto.stripePaymentId paidOrderDto)
     /\ Db.orderReceipt (World.db w')
        = Db.orderReceipt (World.db w)
          ++ [OrderReceipt.mk id (PaidOrderDto.receiptUrl paidOrderDto)]
     /\ Prisma.receiptsOf id (World.db w')
        = [OrderReceipt.mk id (PaidOrderDto.receiptUrl paidOrderDto)]
     /\ Order.id o' = Order.id o
     /\ Order.totalAmount o' = Order.totalAmount o
     /\ Order.totalItems o' = Order.totalItems o
     /\ Db.orderItem (World.db w') = Db.orderItem (World.db w)
     /\ Prisma.itemsOf id (World.db w') = Prisma.itemsOf id (World.db w)
     /\ List.length (Db.order (World.db w'))
        = List.length (Db.order (World.db w))
     /\ (forall id', id' <> id ->
           Prisma.lookup id' (World.db w') = Prisma.lookup id' (World.db w)))
  /\
  (Prisma.receiptsOf id (World.db w) <> [] ->
   exists error w',
     paidOrder now paidOrderDto w = (Throw error, w')
     /\ isRpcException error = false
     /\ World.db w' = World.db w).
Proof.
  intros id Hfound. split.
  - intros Hfirst.
    do 2 eexists. split; [apply paidOrder_ok; [exact Hfound | exact Hfirst]|].
    cbn [World.db Db.order Db.orderItem Db.orderReceipt].
    split.
    { unfold Prisma.lookup. cbn [Db.order].
      apply find_updateRow_same; [reflexivity | exact Hfound]. }
    do 5 (split; [reflexivity|]).
    split.
    { unfold Prisma.receiptsOf in *. cbn [Db.orderReceipt].
      rewrite filter_app. fold id. rewrite Hfirst.
      cbn [filter OrderReceipt.orderId app]. now rewrite String.eqb_refl. }
    do 5 (split; [reflexivity|]).
    split; [apply updateRow_length|].
    intros id' Hne. unfold Prisma.lookup. cbn [Db.order].
    apply find_updateRow_other; [reflexivity | exact Hne].
  - intros Hagain.
    do 2 eexists. split; [apply paidOrder_refused with (o := o);
                          [exact Hfound | exact Hagain]|].
    split; reflexivity.
Qed.

Lemma paidOrder_marks_paid_witness :
  exists o' w',
    paidOrder 1730505600000 (PaidOrderDto.mk "o1" "ch_1" "https://r/1")
      Example.world = (Ok o', w')
    /\ Order.status o' = PAID
    /\ Db.orderReceipt (World.db w') = [OrderReceipt.mk "o1" "https://r/1"].
Proof.
  destruct (paidOrder_marks_paid 1730505600000
              (PaidOrderDto.mk "o1" "ch_1" "https://r/1") Example.world
              (o := Example.stored) eq_refl) as [Hfirst _].
  destruct (Hfirst eq_refl)
    as [o' [w' [Hrun [_ [Hstatus [_ [_ [_ [Hreceipt _]]]]]]]]].
  exists o', w'. repeat split; assumption.
Defined.

(** C10. For an order id that is not in the store, [paidOrder] fails with
    the error of the repository as it is (Prisma's P2025, not an
    [RpcException], so not the NOT_FOUND shape of [findOne]), and the
    database - orders, items and receipts - is the one it started from. *)
Theorem paidOrder_unknown_order (now : Z) (paidOrderDto : PaidOrderDto.t)
    (w : World.t) :
  Prisma.lookup (PaidOrderDto.orderId paidOrderDto) (World.db w) = None ->
  exists error w',
    paidOrder now paidOrderDto w = (Throw error, w')
    /\ error = PrismaClientKnownRequestError "P2025"
                 "Record to update not found."
    /\ isRpcException error = false
    /\ World.db w' = World.db w.
Proof.
  intros Hmissing.
  do 2 eexists. split.
  - unfold paidOrder, bind, logger_log, Prisma.order_update.
    cbn [World.db]. rewrite Hmissing. reflexivity.
  - repeat split.
Qed.

Lemma paidOrder_unknown_order_witness :
  exists error w',
    paidOrder 0 (PaidOrderDto.mk "o2" "ch_1" "https://r/1") Example.world
    = (Throw error, w')
    /\ isRpcException error = false
    /\ World.db w' = World.db Example.world.
Proof.
  destruct (paidOrder_unknown_order 0
              (PaidOrderDto.mk "o2" "ch_1" "https://r/1") Example.world
              eq_refl)
    as [error [w' [Hrun [_ [Hraw Hdb]]]]].
  exists error, w'. repeat split; assumption.
Defined.

(** ** [findOne] and [changeStatus] *)

(** A successful enrichment met only known products, left the world alone
    and named every item after the product found for it. *)
Lemma mapM_withName_inv (products : list Product.t) (items : list OrderItem.t)
    (w w' : World.t) (named : list NamedItem.t) :
  mapM (withName products) items w = (Ok named, w') ->
  w' = w
  /\ named = map (namedOf products) items
  /\ (forall item, In item items ->
        In (OrderItem.productId item) (map Product.id products)).
Proof.
  revert named w'.
  induction items as [|item items IH]; intros named w'; simpl.
  - unfold ret. intros H. injection H as <- <-. repeat split. intros ? [].
  - unfold bind at 1. unfold withName at 1. unfold bind at 1.
    destruct (findProduct products (OrderItem.productId item)) as [p|] eqn:E;
      simpl; [|discriminate].
    unfold bind at 1.
    destruct (mapM (withName products) items w) as [[rest|error] w1] eqn:Hrest;
      [|discriminate].
    destruct (IH rest w1 eq_refl) as [-> [-> Hknown]].
    unfold ret. intros H. injection H as <- <-.
    split; [reflexivity|]. split.
    + unfold namedOf at 2. unfold productName. rewrite E. reflexivity.
    + intros i [<-|Hi]; [|now apply Hknown].
      destruct (in_dec string_dec (OrderItem.productId item)
                  (map Product.id products)) as [Hin|Hout]; [exact Hin|].
      apply findProduct_absent in Hout. congruence.
Qed.

(** The first unknown product id met by the enrichment stops it. *)
Lemma mapM_withName_unknown (products : list Product.t)
    (items : list OrderItem.t) (w : World.t) :
  (exists item, In item items /\
     ~ In (OrderItem.productId item) (map Product.id products)) ->
  mapM (withName products) items w
  = (Throw (TypeError "Cannot read properties of undefined (reading 'name')"),
     w).
Proof.
  intros Hbad.
  destruct (mapM (withName products) items w) as [[named|error] w'] eqn:Hrun.
  - apply mapM_withName_inv in Hrun. destruct Hrun as [_ [_ Hknown]].
    destruct Hbad as [item [Hin Hout]]. now apply Hknown in Hin.
  - revert Hrun. clear Hbad.
    induction items as [|item items IH]; simpl; [discriminate|].
    unfold bind at 1. unfold withName at 1. unfold bind at 1.
    destruct (findProduct products (OrderItem.productId item)) as [p|]; simpl.
    + unfold bind at 1.
      destruct (mapM (withName products) items w) as [[rest|e] w1];
        [discriminate|].
      intros H. injection H as <- <-. now apply IH.
    + intros H. injection H as <- <-. reflexivity.
Qed.

Section FindOne.

Variable Session : Type.
Variable client : ClientProxy.t Session.
Variable id : string.
Variable w : World.t.

Lemma findOne_missing :
  Prisma.lookup id (World.db w) = None ->
  findOne client id w
  = (Throw (RpcException NOT_FOUND (notFoundMessage id)), w).
Proof.
  intros Hmissing.
  unfold findOne, bind, Prisma.order_findFirst. rewrite Hmissing.
  reflexivity.
Qed.

(** [findOne] on a stored order: the validator is asked about the product
    ids of the stored items and its answer decides the outcome. *)
Lemma findOne_found (o : Order.t) :
  Prisma.lookup id (World.db w) = Some o ->
  let items := Prisma.itemsOf id (World.db w) in
  let productIds := map OrderItem.productId items in
  findOne client id w
  = match ClientProxy.validateProducts client productIds with
    | Throw error => (Throw error, emit (validate_products productIds) w)
    | Ok products =>
        match mapM (withName products) items
                (emit (validate_products productIds) w) with
        | (Ok named, w') => (Ok (OrderWithProducts.mk o named), w')
        | (Throw error, w') => (Throw error, w')
        end
    end.
Proof.
  intros Hfound items productIds.
  unfold findOne. unfold bind at 1. unfold Prisma.order_findFirst at 1.
  rewrite Hfound.
  cbn [OrderWithItems.OrderItem OrderWithItems.order].
  fold items. fold productIds.
  unfold bind at 1. unfold send_validate_products at 1.
  destruct (ClientProxy.validateProducts client productIds) as [products|error];
    [|reflexivity].
  unfold bind at 1.
  destruct (mapM (withName products) items
              (emit (validate_products productIds) w)) as [[named|error] w'];
    reflexivity.
Qed.

End FindOne.

(** C6. For an id that is not in the store, [findOne] throws an
    [RpcException] of status NOT_FOUND whose message, "Order with id <id>
    not found", names the id; [changeStatus] on the same id throws the very
    same exception, and neither call changes the world: no update is
    performed and no message is sent. *)
Theorem findOne_changeStatus_not_found (Session : Type)
    (client : ClientProxy.t Session) (id : string) (status : OrderStatus)
    (w : World.t) :
  Prisma.lookup id (World.db w) = None ->
  let notFound :=
    RpcException NOT_FOUND ("Order with id " ++ id ++ " not found")%string in
  findOne client id w = (Throw notFound, w)
  /\ changeStatus client (ChangeOrderStatusDto.mk id status) w
     = (Throw notFound, w).
Proof.
  intros Hmissing notFound. split.
  - apply findOne_missing. exact Hmissing.
  - unfold changeStatus. cbn [ChangeOrderStatusDto.id]. unfold bind at 1.
    rewrite findOne_missing by exact Hmissing. reflexivity.
Qed.

Lemma findOne_changeStatus_not_found_witness :
  findOne Example.client "o2" Example.world
  = (Throw (RpcException NOT_FOUND "Order with id o2 not found"),
     Example.world)
  /\ changeStatus Example.client (ChangeOrderStatusDto.mk "o2" DELIVERED)
       Example.world
     = (Throw (RpcException NOT_FOUND "Order with id o2 not found"),
        Example.world).
Proof.
  apply (findOne_changeStatus_not_found Example.client "o2" DELIVERED
           Example.world eq_refl).
Defined.

(** C8. For an id of the store, [findOne] fails whenever the enrichment
    fails: if the validator call fails, [findOne] throws that error; if the
    reply lacks the product id of a stored item, [findOne] throws the
    [TypeError] of reading [.name] of [undefined].  Whatever result
    [findOne] returns carries the stored order with all its items, each
    one named after the product the validator returned for its id. *)
Theorem findOne_enrichment_fails_fast (Session : Type)
    (client : ClientProxy.t Session) (id : string) (w : World.t)
    (o : Order.t) :
  Prisma.lookup id (World.db w) = Some o ->
  let items := Prisma.itemsOf id (World.db w) in
  let productIds := map OrderItem.productId items in
  let reply := ClientProxy.validateProducts client productIds in
  (forall error, reply = Throw error ->
     findOne client id w
     = (Throw error, emit (validate_products productIds) w))
  /\ (forall products, reply = Ok products ->
        (exists item, In item items /\
           ~ In (OrderItem.productId item) (map Product.id products)) ->
        findOne client id w
        = (Throw (TypeError
                    "Cannot read properties of undefined (reading 'name')"),
           emit (validate_products productIds) w))
  /\ (forall result w',
        findOne client id w = (Ok result, w') ->
        exists products,
          reply = Ok products
          /\ OrderWithProducts.order result = o
          /\ map NamedItem.item (OrderWithProducts.OrderItem result) = items
          /\ Forall
               (fun named =>
                  exists product,
                    findProduct products
                      (OrderItem.productId (NamedItem.item named))
                    = Some product
                    /\ NamedItem.name named = Product.name product)
               (OrderWithProducts.OrderItem result)).
Proof.
  intros Hfound items productIds reply.
  pose proof (findOne_found client id w Hfound) as Hrun.
  cbv zeta in Hrun. fold items in Hrun. fold productIds in Hrun.
  fold reply in Hrun.
  split; [|split].
  - intros error Hreply. rewrite Hrun, Hreply. reflexivity.
  - intros products Hreply Hbad. rewrite Hrun, Hreply.
    rewrite mapM_withName_unknown by exact Hbad. reflexivity.
  - intros result w' Hok. rewrite Hrun in Hok.
    destruct reply as [products|error]; [|discriminate].
    exists products. split; [reflexivity|].
    destruct (mapM (withName products) items
                (emit (validate_products productIds) w))
      as [[named|error] w1] eqn:Hmap; [|discriminate].
    injection Hok as <- <-.
    apply mapM_withName_inv in Hmap. destruct Hmap as [_ [-> Hknown]].
    cbn [OrderWithProducts.order OrderWithProducts.OrderItem].
    split; [reflexivity|]. split.
    + rewrite map_map. unfold namedOf. cbn [NamedItem.item]. apply map_id.
    + apply Forall_forall. intros named Hin.
      apply in_map_iff in Hin. destruct Hin as [item [<- Hitem]].
      unfold namedOf, productName. cbn [NamedItem.item NamedItem.name].
      destruct (findProduct_known _ _ (Hknown item Hitem)) as [p Hp].
      exists p. rewrite Hp. split; reflexivity.
Qed.

Lemma findOne_enrichment_fails_fast_witness :
  findOne Example.offline "o1" Example.world
  = (Throw (RemoteError "Empty response"),
     emit (validate_products ["p1"; "p2"]) Example.world).
Proof.
  destruct (findOne_enrichment_fails_fast Example.offline "o1" Example.world
              (o := Example.stored) eq_refl) as [Hdown _].
  apply (Hdown (RemoteError "Empty response") eq_refl).
Defined.

(** ** [createPaymentSession] *)

(** C9. [createPaymentSession] leaves the database as it is, hands the
    client one message - the order id, currency "usd" and the order's
    items mapped to name, price and quantity - and its outcome is the
    gateway's reply itself: the session object as received, or the
    gateway's error. *)
Theorem createPaymentSession_frame (Session : Type)
    (client : ClientProxy.t Session) (order : OrderWithProducts.t)
    (w : World.t) :
  let payload :=
    PaymentSessionRequest.mk (Order.id (OrderWithProducts.order order)) "usd"
      (map (fun item =>
              PaymentItem.mk (NamedItem.name item)
                (OrderItem.price (NamedItem.item item))
                (OrderItem.quantity (NamedItem.item item)))
         (OrderWithProducts.OrderItem order)) in
  let outcome := createPaymentSession client order w in
  fst outcome = ClientProxy.createPaymentSession client payload
  /\ World.db (snd outcome) = World.db w
  /\ World.sent (snd outcome) = World.sent w ++ [create_payment_session payload]
  /\ World.log (snd outcome) = World.log w.
Proof.
  intros payload outcome. subst outcome.
  unfold createPaymentSession, bind, send_create_payment_session.
  change (paymentSessionRequest order) with payload.
  destruct (ClientProxy.createPaymentSession client payload);
    repeat split.
Qed.

(** ** The message [create] sends to the validator *)

Lemma allKnown_dec (products : list Product.t) (items : list OrderItemDto.t) :
  allKnown products items
  \/ (exists item, In item items /\
        ~ In (OrderItemDto.productId item) (map Product.id products)).
Proof.
  induction items as [|item items IH].
  - left. intros ? [].
  - destruct (in_dec string_dec (OrderItemDto.productId item)
                (map Product.id products)) as [Hin|Hout].
    + destruct IH as [Hall|[bad [Hbad Hout]]].
      * left. intros i [<-|Hi]; [exact Hin | now apply Hall].
      * right. exists bad. split; [now right | exact Hout].
    + right. exists item. split; [now left | exact Hout].
Qed.

(** C5, as worded, fails: for a request whose two items reference the same
    product, the payload sent to the validator holds that id twice. *)
Lemma create_sends_repeated_ids :
  sentBy (create Example.client "o1" Example.repeatedDto) Example.empty
  = [validate_products ["p1"; "p1"]]
  /\ ~ sendsDistinctProductIds Example.client "o1" Example.repeatedDto
         Example.empty.
Proof.
  split; [reflexivity|].
  intros [productIds [Hsent [Hnodup _]]].
  vm_compute in Hsent. injection Hsent as <-.
  inversion Hnodup as [|? ? Hnotin _]. apply Hnotin. now left.
Qed.

(** C5, amended. [create] sends the validator one message, whose payload
    is the list of the product ids of the request's items, one entry per
    item and in the order of the items, so an id referenced by several
    items is repeated; the ids sent are exactly the ids referenced. *)
Theorem create_sends_item_product_ids (Session : Type)
    (client : ClientProxy.t Session) (uuid : string)
    (createOrderDto : CreateOrderDto.t) (w : World.t) :
  let items := CreateOrderDto.items createOrderDto in
  exists productIds,
    sentBy (create client uuid createOrderDto) w
    = World.sent w ++ [validate_products productIds]
    /\ productIds = map OrderItemDto.productId items
    /\ List.length productIds = List.length items
    /\ (forall productId,
          In productId productIds <->
          exists item, In item items /\
            OrderItemDto.productId item = productId).
Proof.
  intros items.
  exists (map OrderItemDto.productId items).
  split; [|split; [reflexivity|split]].
  - unfold sentBy.
    destruct (ClientProxy.validateProducts client
                (map OrderItemDto.productId items))
      as [products|error] eqn:Hreply.
    + destruct (allKnown_dec products items) as [Hknown|Hbad].
      * destruct (Prisma.lookup uuid (World.db w)) as [o|] eqn:Hlookup.
        -- rewrite (create_taken client uuid createOrderDto w
                      Hreply Hknown Hlookup).
           reflexivity.
        -- rewrite (create_ok client uuid createOrderDto w
                      Hreply Hknown Hlookup).
           reflexivity.
      * rewrite (create_unknown_product client uuid createOrderDto w
                   Hreply Hbad).
        reflexivity.
    + rewrite (create_validator_down client uuid createOrderDto w Hreply).
      reflexivity.
  - apply length_map.
  - intros productId. rewrite in_map_iff. split.
    + intros [item [Heq Hin]]. exists item. split; assumption.
    + intros [item [Hin Heq]]. exists item. split; assumption.
Qed.

(** * Further properties *)

(** ** Lookups *)

Lemma lookup_None (id : string) (d : Db.t) :
  Prisma.lookup id d = None <-> ~ In id (orderIds d).
Proof.
  unfold Prisma.lookup, orderIds.
  induction (Db.order d) as [|o rows IH]; simpl.
  - tauto.
  - unfold Prisma.hasId at 1.
    destruct (String.eqb_spec (Order.id o) id) as [E|E].
    + split; [discriminate | intros H; exfalso; apply H; now left].
    + rewrite IH. tauto.
Qed.

Lemma lookup_Some (id : string) (d : Db.t) (o : Order.t) :
  Prisma.lookup id d = Some o -> In o (Db.order d) /\ Order.id o = id.
Proof.
  unfold Prisma.lookup. intros H. apply find_some in H.
  destruct H as [Hin Hid]. split; [exact Hin|].
  now apply String.eqb_eq.
Qed.

Lemma find_app_some {A} (f : A -> bool) (xs ys : list A) (x : A) :
  find f xs = Some x -> find f (xs ++ ys) = Some x.
Proof.
  induction xs as [|a xs IH]; simpl; [discriminate|].
  destruct (f a); [trivial | exact IH].
Qed.

Lemma find_app_none {A} (f : A -> bool) (xs ys : list A) :
  find f xs = None -> find f (xs ++ ys) = find f ys.
Proof.
  induction xs as [|a xs IH]; simpl; [reflexivity|].
  destruct (f a); [discriminate | exact IH].
Qed.

Lemma hasId_refl (o : Order.t) : Prisma.hasId (Order.id o) o = true.
Proof. unfold Prisma.hasId. apply String.eqb_refl. Qed.

Lemma sumItemQuantities_itemOf (products : list Product.t)
    (items : list OrderItemDto.t) :
  sumItemQuantities (map (itemOf products) items) = sumQuantities items.
Proof.
  induction items as [|item items IH]; simpl; [reflexivity|].
  now rewrite IH.
Qed.

(** ** More on [create] *)

(** Whenever [create] throws, what it throws is an [RpcException] of
    status BAD_REQUEST, and the database, like the log, is the one it
    started from: a message to the validator is all that has happened. *)
Theorem create_all_or_nothing (Session : Type)
    (client : ClientProxy.t Session) (uuid : string)
    (createOrderDto : CreateOrderDto.t) (w w' : World.t)
    (error : Exception) :
  create client uuid createOrderDto w = (Throw error, w') ->
  (exists msg, error = RpcException BAD_REQUEST msg)
  /\ World.db w' = World.db w
  /\ World.log w' = World.log w.
Proof.
  set (items := CreateOrderDto.items createOrderDto).
  destruct (ClientProxy.validateProducts client
              (map OrderItemDto.productId items))
    as [products|remote] eqn:Hreply.
  - destruct (allKnown_dec products items) as [Hknown|Hbad].
    + destruct (Prisma.lookup uuid (World.db w)) as [o|] eqn:Hlookup.
      * rewrite (create_taken client uuid createOrderDto w
                   Hreply Hknown Hlookup).
        intros H. injection H as <- <-. repeat split. now eexists.
      * rewrite (create_ok client uuid createOrderDto w
                   Hreply Hknown Hlookup).
        discriminate.
    + rewrite (create_unknown_product client uuid createOrderDto w
                 Hreply Hbad).
      intros H. injection H as <- <-. repeat split. now eexists.
  - rewrite (create_validator_down client uuid createOrderDto w Hreply).
    intros H. injection H as <- <-. repeat split. now eexists.
Qed.

Lemma create_all_or_nothing_witness :
  (exists msg,
     RpcException BAD_REQUEST "Unique constraint failed on the fields: (`id`)"
     = RpcException BAD_REQUEST msg)
  /\ World.db (emit (validate_products ["p1"; "p2"]) Example.world)
     = World.db Example.world
  /\ World.log (emit (validate_products ["p1"; "p2"]) Example.world)
     = World.log Example.world.
Proof.
  apply (create_all_or_nothing Example.client "o1" Example.dto
           Example.world eq_refl).
Defined.

(** For a request of at most one item, the persisted [totalAmount] is the
    sum over the items of unit price times quantity: 0 for no item, the
    amount of the item for one. *)
Theorem create_totalAmount_one_item (Session : Type)
    (client : ClientProxy.t Session) (uuid : string)
    (createOrderDto : CreateOrderDto.t) (w : World.t)
    (products : list Product.t) :
  let items := CreateOrderDto.items createOrderDto in
  ClientProxy.validateProducts client (map OrderItemDto.productId items)
  = Ok products ->
  allKnown products items ->
  Prisma.lookup uuid (World.db w) = None ->
  (List.length items <= 1)%nat ->
  exists order w',
    create client uuid createOrderDto w = (Ok order, w')
    /\ Prisma.lookup uuid (World.db w') = Some (OrderWithProducts.order order)
    /\ Order.totalAmount (OrderWithProducts.order order)
       = sumAmounts products items.
Proof.
  intros items Hreply Hknown Hfree Hsmall.
  do 2 eexists. split.
  - apply (create_ok client uuid createOrderDto w Hreply Hknown Hfree).
  - cbn [World.db Db.order OrderWithProducts.order]. split.
    + unfold Prisma.lookup in *. cbn [Db.order].
      rewrite find_app_none by exact Hfree.
      cbn [find]. unfold Prisma.hasId, Prisma.newOrder. cbn [Order.id].
      rewrite String.eqb_refl. reflexivity.
    + fold items. destruct items as [|item [|item' rest]]; simpl in *.
      * reflexivity.
      * lia.
      * lia.
Qed.

Lemma create_totalAmount_one_item_witness :
  exists order w',
    create Example.client "o1" (CreateOrderDto.mk [OrderItemDto.mk "p1" 2])
      Example.empty = (Ok order, w')
    /\ Order.totalAmount (OrderWithProducts.order order) = 20.
Proof.
  assert (Hknown : allKnown Example.products [OrderItemDto.mk "p1" 2]).
  { intros item [<-|[]]; simpl; tauto. }
  destruct (create_totalAmount_one_item Example.client "o1"
              (CreateOrderDto.mk [OrderItemDto.mk "p1" 2]) Example.empty
              eq_refl Hknown eq_refl) as [order [w' [Hrun [_ Hsum]]]].
  - simpl. lia.
  - exists order, w'. split; [exact Hrun | exact Hsum].
Defined.

Lemma lookup_new_row (uuid : string) (rows : list Order.t) (o : Order.t) :
  find (Prisma.hasId uuid) rows = None ->
  Order.id o = uuid ->
  find (Prisma.hasId uuid) (rows ++ [o]) = Some o.
Proof.
  intros Hfree Hid. rewrite find_app_none by exact Hfree.
  cbn [find]. unfold Prisma.hasId. rewrite Hid, String.eqb_refl.
  reflexivity.
Qed.

(** The item rows of [id] among the rows inserted for [uuid]. *)
Lemma filter_new_rows (uuid id : string) (data : list OrderItem.t) :
  map OrderItemRow.item
    (filter (fun r => String.eqb (OrderItemRow.orderId r) id)
       (map (OrderItemRow.mk uuid) data))
  = if String.eqb uuid id then data else [].
Proof.
  induction data as [|item data IH]; simpl.
  - now destruct (String.eqb uuid id).
  - destruct (String.eqb uuid id); simpl; [now rewrite IH | exact IH].
Qed.

Lemma itemsOf_unowned (id : string) (d : Db.t) :
  (forall r, In r (Db.orderItem d) ->
     In (OrderItemRow.orderId r) (orderIds d)) ->
  Prisma.lookup id d = None ->
  Prisma.itemsOf id d = [].
Proof.
  intros Howned Hfree. apply lookup_None in Hfree.
  unfold Prisma.itemsOf.
  induction (Db.orderItem d) as [|r rows IH]; simpl; [reflexivity|].
  destruct (String.eqb_spec (OrderItemRow.orderId r) id) as [E|E].
  - exfalso. apply Hfree. rewrite <- E. apply Howned. now left.
  - apply IH. intros r' Hr'. apply Howned. now right.
Qed.

(** On success [create] stores one item row per item of the request, in
    the order of the request, each with the unit price the validator
    replied as its price snapshot, and returns these items with the
    validator's product names; the new order is PENDING and unpaid, no
    receipt is written and the orders already stored are still found. *)
Theorem create_persists_snapshot (Session : Type)
    (client : ClientProxy.t Session) (uuid : string)
    (createOrderDto : CreateOrderDto.t) (w : World.t)
    (products : list Product.t) :
  let items := CreateOrderDto.items createOrderDto in
  let snapshot item :=
    OrderItem.mk (OrderItemDto.productId item) (OrderItemDto.quantity item)
      (unitPrice products (OrderItemDto.productId item)) in
  ClientProxy.validateProducts client (map OrderItemDto.productId items)
  = Ok products ->
  allKnown products items ->
  Prisma.lookup uuid (World.db w) = None ->
  exists order w',
    create client uuid createOrderDto w = (Ok order, w')
    /\ Prisma.lookup uuid (World.db w') = Some (OrderWithProducts.order order)
    /\ Order.status (OrderWithProducts.order order) = PENDING
    /\ Order.paid (OrderWithProducts.order order) = false
    /\ Order.paidAt (OrderWithProducts.order order) = None
    /\ Order.stripeChargeId (OrderWithProducts.order order) = None
    /\ OrderWithProducts.OrderItem order
       = map (fun item =>
                NamedItem.mk (snapshot item)
                  (productName products (OrderItemDto.productId item)))
           items
    /\ Db.orderItem (World.db w')
       = Db.orderItem (World.db w)
         ++ map (fun item => OrderItemRow.mk uuid (snapshot item)) items
    /\ Db.orderReceipt (World.db w') = Db.orderReceipt (World.db w)
    /\ (forall id o, Prisma.lookup id (World.db w) = Some o ->
          Prisma.lookup id (World.db w') = Some o).
Proof.
  intros items snapshot Hreply Hknown Hfree.
  do 2 eexists. split.
  - apply (create_ok client uuid createOrderDto w Hreply Hknown Hfree).
  - cbn [World.db Db.order Db.orderItem Db.orderReceipt
           OrderWithProducts.order OrderWithProducts.OrderItem].
    split.
    { unfold Prisma.lookup. cbn [Db.order].
      apply lookup_new_row; [exact Hfree | reflexivity]. }
    do 4 (split; [reflexivity|]).
    split; [now rewrite map_map|].
    split; [now rewrite map_map|].
    split; [reflexivity|].
    intros id o Hfound. unfold Prisma.lookup in *. cbn [Db.order].
    apply find_app_some. exact Hfound.
Qed.

Lemma create_persists_snapshot_witness :
  exists order w',
    create Example.client "o1" Example.dto Example.empty = (Ok order, w')
    /\ Db.orderItem (World.db w')
       = [OrderItemRow.mk "o1" (OrderItem.mk "p1" 2 10);
          OrderItemRow.mk "o1" (OrderItem.mk "p2" 1 5)].
Proof.
  assert (Hknown : allKnown Example.products
                     (CreateOrderDto.items Example.dto)).
  { intros item [<-|[<-|[]]]; simpl; tauto. }
  destruct (create_persists_snapshot Example.client "o1" Example.dto
              Example.empty eq_refl Hknown eq_refl)
    as [order [w' [Hrun [_ [_ [_ [_ [_ [_ [Hrows _]]]]]]]]]].
  exists order, w'. split; [exact Hrun | exact Hrows].
Defined.

(** A request without items is not refused by [create]: the validator is
    asked about the empty list and, whatever products it replies, an order
    with [totalAmount = 0] and [totalItems = 0] is stored, with no item
    row. *)
Theorem create_without_items (Session : Type)
    (client : ClientProxy.t Session) (uuid : string) (w : World.t)
    (products : list Product.t) :
  ClientProxy.validateProducts client [] = Ok products ->
  Prisma.lookup uuid (World.db w) = None ->
  create client uuid (CreateOrderDto.mk []) w
  = (Ok (OrderWithProducts.mk (Order.mk uuid 0 0 PENDING false None None) []),
     World.mk
       (Db.mk
          (Db.order (World.db w)
           ++ [Order.mk uuid 0 0 PENDING false None None])
          (Db.orderItem (World.db w))
          (Db.orderReceipt (World.db w)))
       (World.sent w ++ [validate_products []])
       (World.log w)).
Proof.
  intros Hreply Hfree.
  assert (Hknown : allKnown products
                     (CreateOrderDto.items (CreateOrderDto.mk []))).
  { intros item []. }
  rewrite (create_ok client uuid (CreateOrderDto.mk []) w
             Hreply Hknown Hfree).
  cbn. now rewrite app_nil_r.
Qed.

Lemma create_without_items_witness :
  fst (create Example.client "o1" (CreateOrderDto.mk []) Example.empty)
  = Ok (OrderWithProducts.mk (Order.mk "o1" 0 0 PENDING false None None) []).
Proof.
  rewrite (create_without_items Example.client "o1" Example.empty
             (products := Example.products) eq_refl eq_refl).
  reflexivity.
Defined.

(** ** More on [findOne] *)

Lemma mapM_withName_world (products : list Product.t)
    (items : list OrderItem.t) (w : World.t) :
  snd (mapM (withName products) items w) = w.
Proof.
  induction items as [|item items IH]; simpl; [reflexivity|].
  unfold bind at 1. unfold withName at 1. unfold bind at 1.
  destruct (findProduct products (OrderItem.productId item)) as [p|]; simpl;
    [|reflexivity].
  unfold bind at 1.
  destruct (mapM (withName products) items w) as [[rest|e] w1];
    simpl in *; exact IH.
Qed.

(** Whatever happens, [findOne] writes nothing: the database and the log
    are left as they were, and at most one message has been sent, the
    validator request for the product ids of the stored items. *)
Theorem findOne_read_only (Session : Type) (client : ClientProxy.t Session)
    (id : string) (w : World.t) :
  let w' := after (findOne client id) w in
  World.db w' = World.db w
  /\ World.log w' = World.log w
  /\ (World.sent w' = World.sent w
      \/ World.sent w'
         = World.sent w
           ++ [validate_products
                 (map OrderItem.productId
                    (Prisma.itemsOf id (World.db w)))]).
Proof.
  unfold after.
  destruct (Prisma.lookup id (World.db w)) as [o|] eqn:Hlookup.
  - rewrite (findOne_found client id w Hlookup).
    set (items := Prisma.itemsOf id (World.db w)).
    set (productIds := map OrderItem.productId items).
    destruct (ClientProxy.validateProducts client productIds)
      as [products|error].
    + pose proof (mapM_withName_world products items
                    (emit (validate_products productIds) w)) as Hworld.
      destruct (mapM (withName products) items
                  (emit (validate_products productIds) w))
        as [[named|error] w1]; simpl in Hworld; subst w1;
        simpl; auto.
    + simpl. auto.
  - rewrite (findOne_missing client id w Hlookup). simpl. auto.
Qed.

(** For a stored order all of whose products the validator knows,
    [findOne] returns the stored row with its stored items - product id,
    quantity and price as they are in the store - each with the name the
    validator replies now. *)
Theorem findOne_enriches (Session : Type) (client : ClientProxy.t Session)
    (id : string) (w : World.t) (o : Order.t) (products : list Product.t) :
  let items := Prisma.itemsOf id (World.db w) in
  let productIds := map OrderItem.productId items in
  Prisma.lookup id (World.db w) = Some o ->
  ClientProxy.validateProducts client productIds = Ok products ->
  (forall item, In item items ->
     In (OrderItem.productId item) (map Product.id products)) ->
  findOne client id w
  = (Ok (OrderWithProducts.mk o
           (map (fun item =>
                   NamedItem.mk item
                     (productName products (OrderItem.productId item)))
              items)),
     emit (validate_products productIds) w).
Proof.
  intros items productIds Hfound Hreply Hknown.
  rewrite (findOne_found client id w Hfound).
  fold items. fold productIds. rewrite Hreply.
  rewrite mapM_withName by exact Hknown. reflexivity.
Qed.

Lemma findOne_enriches_witness :
  findOne Example.client "o1" Example.world
  = (Ok (OrderWithProducts.mk Example.stored
           [NamedItem.mk (OrderItem.mk "p1" 2 10) "A";
            NamedItem.mk (OrderItem.mk "p2" 1 5) "B"]),
     emit (validate_products ["p1"; "p2"]) Example.world).
Proof.
  apply (findOne_enriches Example.client "o1" Example.world
           (o := Example.stored) (products := Example.products)
           eq_refl eq_refl).
  intros item [<-|[<-|[]]]; simpl; tauto.
Defined.

Lemma Consistent_empty : Consistent (Db.mk [] [] []).
Proof.
  constructor; simpl; try (intros ? []).
  constructor.
Qed.

(** An order that [create] has stored is read back by [findOne]: asked
    for the new identifier right after, with the same validator, [findOne]
    returns the very value [create] returned. *)
Theorem create_then_findOne (Session : Type) (client : ClientProxy.t Session)
    (uuid : string) (createOrderDto : CreateOrderDto.t) (w w' : World.t)
    (order : OrderWithProducts.t) :
  Consistent (World.db w) ->
  create client uuid createOrderDto w = (Ok order, w') ->
  fst (findOne client uuid w') = Ok order.
Proof.
  intros Hcons.
  set (items := CreateOrderDto.items createOrderDto).
  destruct (ClientProxy.validateProducts client
              (map OrderItemDto.productId items))
    as [products|remote] eqn:Hreply.
  2:{ rewrite (create_validator_down client uuid createOrderDto w Hreply).
      discriminate. }
  destruct (allKnown_dec products items) as [Hknown|Hbad].
  2:{ rewrite (create_unknown_product client uuid createOrderDto w
                 Hreply Hbad).
      discriminate. }
  destruct (Prisma.lookup uuid (World.db w)) as [o|] eqn:Hlookup.
  { rewrite (create_taken client uuid createOrderDto w Hreply Hknown Hlookup).
    discriminate. }
  rewrite (create_ok client uuid createOrderDto w Hreply Hknown Hlookup).
  intros H. injection H as <- <-.
  match goal with
  | |- fst (findOne client uuid ?x) = _ => set (w1 := x)
  end.
  assert (Hnew : Prisma.lookup uuid (World.db w1)
                 = Some (Prisma.newOrder uuid (lastAmount products items 0)
                           (sumQuantities items))).
  { unfold Prisma.lookup. subst w1. cbn [World.db Db.order].
    apply lookup_new_row; [exact Hlookup | reflexivity]. }
  assert (Hitems : Prisma.itemsOf uuid (World.db w1)
                   = map (itemOf products) items).
  { unfold Prisma.itemsOf. subst w1. cbn [World.db Db.orderItem].
    rewrite filter_app, map_app, filter_new_rows, String.eqb_refl.
    change (map OrderItemRow.item
              (filter (fun r => String.eqb (OrderItemRow.orderId r) uuid)
                 (Db.orderItem (World.db w))))
      with (Prisma.itemsOf uuid (World.db w)).
    rewrite (itemsOf_unowned uuid (World.db w) (items_owned Hcons) Hlookup).
    reflexivity. }
  assert (Hids : map OrderItem.productId (map (itemOf products) items)
                 = map OrderItemDto.productId items)
    by (rewrite map_map; reflexivity).
  rewrite (findOne_found client uuid w1 Hnew). cbv zeta.
  rewrite Hitems, Hids, Hreply.
  rewrite mapM_withName.
  - reflexivity.
  - intros item Hin. apply in_map_iff in Hin.
    destruct Hin as [i [<- Hi]]. simpl. now apply Hknown.
Qed.

Lemma create_then_findOne_witness :
  exists order w',
    create Example.client "o1" Example.dto Example.empty = (Ok order, w')
    /\ fst (findOne Example.client "o1" w') = Ok order.
Proof.
  do 2 eexists. split; [reflexivity|].
  apply (create_then_findOne Example.client "o1" Example.dto
           Example.empty Consistent_empty eq_refl).
Defined.

(** ** More on [changeStatus] *)

(** [changeStatus] is [findOne] followed, when it returns, by the
    update. *)
Lemma changeStatus_run (Session : Type) (client : ClientProxy.t Session)
    (id : string) (status : OrderStatus) (w : World.t) :
  changeStatus client (ChangeOrderStatusDto.mk id status) w
  = match findOne client id w with
    | (Ok _, w1) => Prisma.order_update id (setStatus status) None w1
    | (Throw error, w1) => (Throw error, w1)
    end.
Proof. reflexivity. Qed.

(** For a stored order all of whose products the validator knows,
    [changeStatus] writes the requested status, whatever the current one,
    and returns the updated row; the order's other columns - identifier,
    totals, paid, paidAt, stripeChargeId - its item rows, the receipts and
    the other orders are left as they were. *)
Theorem changeStatus_sets_status (Session : Type)
    (client : ClientProxy.t Session) (id : string) (status : OrderStatus)
    (w : World.t) (o : Order.t) (products : list Product.t) :
  let items := Prisma.itemsOf id (World.db w) in
  Prisma.lookup id (World.db w) = Some o ->
  ClientProxy.validateProducts client (map OrderItem.productId items)
  = Ok products ->
  (forall item, In item items ->
     In (OrderItem.productId item) (map Product.id products)) ->
  exists o' w',
    changeStatus client (ChangeOrderStatusDto.mk id status) w = (Ok o', w')
    /\ Prisma.lookup id (World.db w') = Some o'
    /\ o' = Order.mk (Order.id o) (Order.totalAmount o) (Order.totalItems o)
              status (Order.paid o) (Order.paidAt o) (Order.stripeChargeId o)
    /\ Db.orderItem (World.db w') = Db.orderItem (World.db w)
    /\ Db.orderReceipt (World.db w') = Db.orderReceipt (World.db w)
    /\ (forall id', id' <> id ->
          Prisma.lookup id' (World.db w') = Prisma.lookup id' (World.db w)).
Proof.
  intros items Hfound Hreply Hknown.
  rewrite changeStatus_run. rewrite (findOne_found client id w Hfound).
  fold items. rewrite Hreply. rewrite mapM_withName by exact Hknown.
  unfold Prisma.order_update. cbn [emit World.db]. rewrite Hfound.
  do 2 eexists. split; [reflexivity|].
  cbn [World.db Db.order Db.orderItem Db.orderReceipt].
  split.
  { unfold Prisma.lookup. cbn [Db.order].
    apply find_updateRow_same; [reflexivity | exact Hfound]. }
  do 3 (split; [reflexivity|]).
  intros id' Hne. unfold Prisma.lookup. cbn [Db.order].
  apply find_updateRow_other; [reflexivity | exact Hne].
Qed.

Lemma changeStatus_sets_status_witness :
  exists o' w',
    changeStatus Example.client (ChangeOrderStatusDto.mk "o1" DELIVERED)
      Example.world = (Ok o', w')
    /\ o' = Order.mk "o1" 5 3 DELIVERED false None None.
Proof.
  destruct (changeStatus_sets_status Example.client "o1" DELIVERED
              Example.world (o := Example.stored)
              (products := Example.products) eq_refl eq_refl)
    as [o' [w' [Hrun [_ [Ho' _]]]]].
  - intros item [<-|[<-|[]]]; simpl; tauto.
  - exists o', w'. split; [exact Hrun | exact Ho'].
Defined.

(** [changeStatus] depends on the validator: for a stored order, when the
    validator call fails or its reply lacks the product of a stored item,
    [changeStatus] throws the error [findOne] throws and the status is
    not written - the database is left as it was. *)
Theorem changeStatus_needs_validator (Session : Type)
    (client : ClientProxy.t Session) (id : string) (status : OrderStatus)
    (w : World.t) (o : Order.t) :
  let items := Prisma.itemsOf id (World.db w) in
  let productIds := map OrderItem.productId items in
  let reply := ClientProxy.validateProducts client productIds in
  Prisma.lookup id (World.db w) = Some o ->
  (exists error, reply = Throw error)
  \/ (exists products, reply = Ok products /\
        exists item, In item items /\
          ~ In (OrderItem.productId item) (map Product.id products)) ->
  exists error w',
    changeStatus client (ChangeOrderStatusDto.mk id status) w
    = (Throw error, w')
    /\ findOne client id w = (Throw error, w')
    /\ World.db w' = World.db w
    /\ Prisma.lookup id (World.db w') = Some o.
Proof.
  intros items productIds reply Hfound Hfail.
  rewrite changeStatus_run. rewrite (findOne_found client id w Hfound).
  fold items. fold productIds. fold reply.
  destruct Hfail as [[error ->]|[products [-> Hbad]]].
  - do 2 eexists. repeat split. exact Hfound.
  - rewrite mapM_withName_unknown by exact Hbad.
    do 2 eexists. repeat split. exact Hfound.
Qed.

Lemma changeStatus_needs_validator_witness :
  exists error w',
    changeStatus Example.offline (ChangeOrderStatusDto.mk "o1" CANCELLED)
      Example.world = (Throw error, w')
    /\ World.db w' = World.db Example.world.
Proof.
  destruct (changeStatus_needs_validator Example.offline "o1" CANCELLED
              Example.world (o := Example.stored) eq_refl)
    as [error [w' [Hrun [_ [Hdb _]]]]].
  - left. now exists (RemoteError "Empty response").
  - exists error, w'. split; [exact Hrun | exact Hdb].
Defined.

(** ** From [findOne] to [createPaymentSession] *)

(** The payment request built for an order that [findOne] has returned
    carries, for every stored item, the price and the quantity of the
    store - the price snapshot, not the validator's current price - and
    the name the validator replied to [findOne]; the two calls send these
    two messages and write nothing. *)
Theorem payment_request_of_found_order (Session : Type)
    (client gateway : ClientProxy.t Session) (id : string) (w w1 : World.t)
    (order : OrderWithProducts.t) :
  let items := Prisma.itemsOf id (World.db w) in
  let productIds := map OrderItem.productId items in
  findOne client id w = (Ok order, w1) ->
  exists products,
    ClientProxy.validateProducts client productIds = Ok products
    /\ World.sent (after (createPaymentSession gateway order) w1)
       = World.sent w
         ++ [validate_products productIds;
             create_payment_session
               (PaymentSessionRequest.mk id "usd"
                  (map (fun item =>
                          PaymentItem.mk
                            (productName products (OrderItem.productId item))
                            (OrderItem.price item) (OrderItem.quantity item))
                     items))]
    /\ World.db (after (createPaymentSession gateway order) w1) = World.db w.
Proof.
  intros items productIds.
  destruct (Prisma.lookup id (World.db w)) as [o|] eqn:Hlookup.
  2:{ rewrite (findOne_missing client id w Hlookup). discriminate. }
  rewrite (findOne_found client id w Hlookup).
  fold items. fold productIds.
  destruct (ClientProxy.validateProducts client productIds)
    as [products|error]; [|discriminate].
  destruct (mapM (withName products) items
              (emit (validate_products productIds) w))
    as [[named|error] w2] eqn:Hmap; [|discriminate].
  apply mapM_withName_inv in Hmap. destruct Hmap as [-> [-> _]].
  intros H. injection H as <- <-.
  exists products. split; [reflexivity|].
  destruct (lookup_Some _ _ Hlookup) as [_ Hid].
  unfold after, createPaymentSession, bind, send_create_payment_session.
  unfold paymentSessionRequest.
  cbn [OrderWithProducts.order OrderWithProducts.OrderItem].
  rewrite Hid, map_map.
  destruct (ClientProxy.createPaymentSession gateway _);
    unfold ret; cbn [snd emit World.sent World.db]; rewrite <- app_assoc;
    split; reflexivity.
Qed.

Lemma payment_request_of_found_order_witness :
  World.sent
    (after (createPaymentSession Example.client
              (OrderWithProducts.mk Example.stored
                 [NamedItem.mk (OrderItem.mk "p1" 2 10) "A";
                  NamedItem.mk (OrderItem.mk "p2" 1 5) "B"]))
       (emit (validate_products ["p1"; "p2"]) Example.world))
  = [validate_products ["p1"; "p2"];
     create_payment_session
       (PaymentSessionRequest.mk "o1" "usd"
          [PaymentItem.mk "A" 10 2; PaymentItem.mk "B" 5 1])].
Proof.
  destruct (payment_request_of_found_order Example.client Example.client
              "o1" Example.world eq_refl) as [products [Hreply [Hsent _]]].
  injection Hreply as <-. exact Hsent.
Defined.

(** ** More on [findAll] *)

(** Whatever the page and the limit, [findAll] leaves the world as it
    is: it writes nothing, sends no message to the validator - the rows
    are returned as stored, without product names - and logs nothing. *)
Theorem findAll_read_only (orderPaginationDto : OrderPaginationDto.t)
    (w : World.t) :
  after (findAll orderPaginationDto) w = w.
Proof.
  unfold after, findAll, bind, Prisma.order_count, Prisma.order_findMany.
  destruct (_ <? 0); [reflexivity|].
  destruct (_ <? 0); reflexivity.
Qed.

Lemma OrderStatus_eqb_eq (a b : OrderStatus) :
  OrderStatus_eqb a b = true -> a = b.
Proof. destruct a, b; simpl; congruence. Qed.

Lemma In_firstn_skipn {A} (n m : nat) (xs : list A) (x : A) :
  In x (firstn n (skipn m xs)) -> In x xs.
Proof.
  intros H.
  rewrite <- (firstn_skipn m xs). apply in_or_app. right.
  rewrite <- (firstn_skipn n (skipn m xs)). apply in_or_app. now left.
Qed.

(** Every row [findAll] returns is a stored order, and has the requested
    status when the request filters by status. *)
Theorem findAll_rows_match (orderPaginationDto : OrderPaginationDto.t)
    (w : World.t) (o : Order.t) :
  In o (dataOf (findAll orderPaginationDto w)) ->
  In o (Db.order (World.db w))
  /\ (forall status,
        OrderPaginationDto.status orderPaginationDto = Some status ->
        Order.status o = status).
Proof.
  unfold dataOf, findAll, bind, Prisma.order_count, Prisma.order_findMany.
  set (rows := filter _ _).
  assert (Hrows : In o rows ->
            In o (Db.order (World.db w))
            /\ (forall status,
                  OrderPaginationDto.status orderPaginationDto = Some status ->
                  Order.status o = status)).
  { subst rows. intros Hin. apply filter_In in Hin.
    destruct Hin as [Hin Hstatus]. split; [exact Hin|].
    intros status Heq. unfold Prisma.hasStatus in Hstatus.
    rewrite Heq in Hstatus. now apply OrderStatus_eqb_eq. }
  destruct (_ <? 0); [intros []|].
  destruct (_ <? 0); cbn [fst ret Page.data]; intros Hin; apply Hrows.
  - apply in_rev in Hin. apply In_firstn_skipn in Hin. now apply in_rev.
  - now apply In_firstn_skipn in Hin.
Qed.

Lemma findAll_rows_match_witness :
  In Example.stored (Db.order (World.db Example.world))
  /\ (forall status, Some PENDING = Some status ->
        Order.status Example.stored = status).
Proof.
  apply (findAll_rows_match (OrderPaginationDto.mk (Some PENDING) 1 10)
           Example.world Example.stored).
  simpl. now left.
Defined.

Lemma firstn_plus {A} (a b : nat) (xs : list A) :
  firstn (a + b) xs = firstn a xs ++ firstn b (skipn a xs).
Proof.
  revert xs. induction a as [|a IH]; intros xs; simpl; [reflexivity|].
  destruct xs as [|x xs]; simpl.
  - now rewrite firstn_nil.
  - now rewrite IH.
Qed.

(** The rows of page [p], for a page number and a limit of at least 1. *)
Lemma findAll_page_data (status : option OrderStatus) (limit : Z) (p : nat)
    (w : World.t) :
  1 <= limit -> (1 <= p)%nat ->
  dataOf (findAll (OrderPaginationDto.mk status (Z.of_nat p) limit) w)
  = firstn (Z.to_nat limit)
      (skipn ((p - 1) * Z.to_nat limit)
         (filter (Prisma.hasStatus status) (Db.order (World.db w)))).
Proof.
  intros Hlimit Hp.
  unfold dataOf, findAll, bind, Prisma.order_count, Prisma.order_findMany.
  cbn [OrderPaginationDto.status OrderPaginationDto.page
         OrderPaginationDto.limit].
  replace ((Z.of_nat p - 1) * limit <? 0) with false
    by (symmetry; apply Z.ltb_ge; nia).
  replace (limit <? 0) with false by (symmetry; apply Z.ltb_ge; lia).
  cbn [fst ret Page.data].
  replace (Z.to_nat ((Z.of_nat p - 1) * limit))
    with ((p - 1) * Z.to_nat limit)%nat; [reflexivity|].
  rewrite Z2Nat.inj_mul by lia. f_equal. lia.
Qed.

(** Pages partition the result: for a limit of at least 1, the rows of
    pages 1 to n, one after the other, are the first n * limit matching
    rows in the order of the store, and pages 1 to meta.lastPage give all
    the matching rows, each once. *)
Theorem findAll_pages_cover (status : option OrderStatus) (limit : Z)
    (w : World.t) :
  let rows := filter (Prisma.hasStatus status) (Db.order (World.db w)) in
  let total := Z.of_nat (List.length rows) in
  let lastPage := Math_ceil (inject_Z total / inject_Z limit)%Q in
  1 <= limit ->
  (forall n, pagesUpTo status limit n w
             = firstn (n * Z.to_nat limit) rows)
  /\ pagesUpTo status limit (Z.to_nat lastPage) w = rows.
Proof.
  intros rows total lastPage Hlimit.
  assert (Hupto : forall n, pagesUpTo status limit n w
                            = firstn (n * Z.to_nat limit) rows).
  { unfold pagesUpTo. induction n as [|n IH]; [reflexivity|].
    rewrite seq_S, flat_map_app, IH. cbn [flat_map].
    rewrite app_nil_r, findAll_page_data by lia.
    fold rows. replace (1 + n - 1)%nat with n by lia.
    replace (S n * Z.to_nat limit)%nat
      with (n * Z.to_nat limit + Z.to_nat limit)%nat by lia.
    now rewrite firstn_plus. }
  split; [exact Hupto|].
  rewrite Hupto. apply firstn_all2.
  destruct (Math_ceil_least total (b := limit) ltac:(lia)) as [Hup _].
  fold lastPage in Hup. subst total. nia.
Qed.

Lemma findAll_pages_cover_witness :
  pagesUpTo (Some PENDING) 10 2 Example.fifteen
  = filter (Prisma.hasStatus (Some PENDING))
      (Db.order (World.db Example.fifteen)).
Proof.
  destruct (findAll_pages_cover (Some PENDING) (limit := 10)
              Example.fifteen ltac:(lia)) as [_ Hall].
  exact Hall.
Defined.

(** ** More on [paidOrder] *)

(** [paidOrder] logs 'Order Paid' before it touches the store, so the
    line is written also when the update then fails because the order
    does not exist; it never sends a message. *)
Theorem paidOrder_logs_first (now : Z) (paidOrderDto : PaidOrderDto.t)
    (w : World.t) :
  World.log (after (paidOrder now paidOrderDto) w)
  = World.log w ++ ["Order Paid"]
  /\ World.sent (after (paidOrder now paidOrderDto) w) = World.sent w.
Proof.
  unfold after, paidOrder, bind, logger_log, Prisma.order_update,
    Prisma.orderReceipt_create.
  cbn [World.db].
  destruct (Prisma.lookup (PaidOrderDto.orderId paidOrderDto) (World.db w));
    [|split; reflexivity].
  destruct (Prisma.receiptsOf (PaidOrderDto.orderId paidOrderDto)
              (World.db w)); split; reflexivity.
Qed.

(** ** What every call does to the database *)

Lemma findOne_after (Session : Type) (client : ClientProxy.t Session)
    (id : string) (w : World.t) :
  after (findOne client id) w = w
  \/ after (findOne client id) w
     = emit (validate_products
               (map OrderItem.productId (Prisma.itemsOf id (World.db w)))) w.
Proof.
  unfold after.
  destruct (Prisma.lookup id (World.db w)) as [o|] eqn:Hlookup.
  - right. rewrite (findOne_found client id w Hlookup).
    set (items := Prisma.itemsOf id (World.db w)).
    set (productIds := map OrderItem.productId items).
    destruct (ClientProxy.validateProducts client productIds)
      as [products|error]; [|reflexivity].
    pose proof (mapM_withName_world products items
                  (emit (validate_products productIds) w)) as Hworld.
    destruct (mapM (withName products) items
                (emit (validate_products productIds) w))
      as [[named|error] w1]; exact Hworld.
  - left. now rewrite (findOne_missing client id w Hlookup).
Qed.

Lemma findOne_db (Session : Type) (client : ClientProxy.t Session)
    (id : string) (w : World.t) :
  World.db (after (findOne client id) w) = World.db w.
Proof.
  destruct (findOne_after client id w) as [-> | ->]; reflexivity.
Qed.

Lemma create_step (Session : Type) (client : ClientProxy.t Session)
    (uuid : string) (createOrderDto : CreateOrderDto.t) (w : World.t) :
  DbStep (World.db w) (World.db (after (create client uuid createOrderDto) w)).
Proof.
  unfold after.
  set (items := CreateOrderDto.items createOrderDto).
  destruct (ClientProxy.validateProducts client
              (map OrderItemDto.productId items))
    as [products|remote] eqn:Hreply.
  - destruct (allKnown_dec products items) as [Hknown|Hbad].
    + destruct (Prisma.lookup uuid (World.db w)) as [o|] eqn:Hlookup.
      * rewrite (create_taken client uuid createOrderDto w
                   Hreply Hknown Hlookup).
        apply step_none.
      * rewrite (create_ok client uuid createOrderDto w
                   Hreply Hknown Hlookup).
        cbn [snd World.db].
        rewrite <- (sumItemQuantities_itemOf products).
        apply step_create. exact Hlookup.
    + rewrite (create_unknown_product client uuid createOrderDto w
                 Hreply Hbad).
      apply step_none.
  - rewrite (create_validator_down client uuid createOrderDto w Hreply).
    apply step_none.
Qed.

Lemma changeStatus_step (Session : Type) (client : ClientProxy.t Session)
    (changeOrderStatusDto : ChangeOrderStatusDto.t) (w : World.t) :
  DbStep (World.db w)
    (World.db (after (changeStatus client changeOrderStatusDto) w)).
Proof.
  destruct changeOrderStatusDto as [id status].
  unfold after. rewrite changeStatus_run.
  pose proof (findOne_db client id w) as Hdb. unfold after in Hdb.
  destruct (findOne client id w) as [[order|error] w1]; cbn [snd] in *.
  - unfold Prisma.order_update. rewrite Hdb.
    destruct (Prisma.lookup id (World.db w)) as [o|] eqn:Hlookup;
      cbn [snd World.db].
    + now apply step_status with (o := o).
    + rewrite Hdb. apply step_none.
  - rewrite Hdb. apply step_none.
Qed.

Lemma paidOrder_step (now : Z) (paidOrderDto : PaidOrderDto.t) (w : World.t) :
  DbStep (World.db w) (World.db (after (paidOrder now paidOrderDto) w)).
Proof.
  unfold after, paidOrder, bind, logger_log, Prisma.order_update,
    Prisma.orderReceipt_create.
  cbn [World.db].
  destruct (Prisma.lookup (PaidOrderDto.orderId paidOrderDto) (World.db w))
    as [o|] eqn:Hlookup; [|apply step_none].
  destruct (Prisma.receiptsOf (PaidOrderDto.orderId paidOrderDto)
              (World.db w)); cbn [snd World.db].
  - now apply step_paid with (o := o).
  - apply step_none.
Qed.

Lemma runCall_step (Session : Type) (call : Call Session) (w : World.t) :
  DbStep (World.db w) (World.db (runCall call w)).
Proof.
  destruct call as [client uuid dto | dto | client id | client dto
                   | client order | now dto]; cbn [runCall].
  - apply create_step.
  - replace (after (findAll dto) w) with w; [apply step_none|].
    unfold after, findAll, bind, Prisma.order_count, Prisma.order_findMany.
    destruct (_ <? 0); [reflexivity|].
    destruct (_ <? 0); reflexivity.
  - rewrite findOne_db. apply step_none.
  - apply changeStatus_step.
  - replace (World.db (after (createPaymentSession client order) w))
      with (World.db w); [apply step_none|].
    unfold after, createPaymentSession, bind, send_create_payment_session.
    destruct (ClientProxy.createPaymentSession client _); reflexivity.
  - apply paidOrder_step.
Qed.

(** ** Rows after an update *)

Section UpdateRow.

Variable id : string.
Variable data : Order.t -> Order.t.
Hypothesis data_id : forall o, Order.id (data o) = Order.id o.

Lemma updateRow_ids (rows : list Order.t) :
  map Order.id (Prisma.updateRow id data rows) = map Order.id rows.
Proof.
  induction rows as [|r rows IH]; simpl; [reflexivity|].
  destruct (Prisma.hasId id r); simpl; [now rewrite data_id | now rewrite IH].
Qed.

(** A row of the updated table is an old row or the image of the old row
    with the identifier. *)
Lemma In_updateRow (rows : list Order.t) (o' : Order.t) :
  In o' (Prisma.updateRow id data rows) ->
  In o' rows \/ exists o, In o rows /\ Order.id o = id /\ o' = data o.
Proof.
  induction rows as [|r rows IH]; simpl; [tauto|].
  destruct (Prisma.hasId id r) eqn:E; simpl.
  - intros [<-|Hin]; [|now left; right].
    right. exists r. split; [now left|]. split; [|reflexivity].
    now apply String.eqb_eq.
  - intros [<-|Hin]; [now left; left|].
    destruct (IH Hin) as [H|[o [Ho [Hid Heq]]]]; [now left; right|].
    right. exists o. split; [now right|]. now split.
Qed.

(** Every old row is still there, as it was or updated. *)
Lemma updateRow_In (rows : list Order.t) (o : Order.t) :
  In o rows ->
  In o (Prisma.updateRow id data rows)
  \/ (In (data o) (Prisma.updateRow id data rows) /\ Order.id o = id).
Proof.
  induction rows as [|r rows IH]; simpl; [tauto|].
  destruct (Prisma.hasId id r) eqn:E; simpl.
  - intros [<-|Hin]; [|now left; right].
    right. split; [now left|]. now apply String.eqb_eq.
  - intros [<-|Hin]; [now left; left|].
    destruct (IH Hin) as [H|[H Hid]]; [now left; right|].
    right. split; [now right | exact Hid].
Qed.

Lemma updateRow_found (rows : list Order.t) (o : Order.t) :
  find (Prisma.hasId id) rows = Some o ->
  In (data o) (Prisma.updateRow id data rows) /\ Order.id o = id.
Proof.
  intros Hfound.
  pose proof (find_updateRow_same id data rows data_id Hfound) as H.
  apply find_some in H. destruct H as [Hin _].
  apply find_some in Hfound. destruct Hfound as [_ Hid].
  split; [exact Hin | now apply String.eqb_eq].
Qed.

End UpdateRow.

(** The item rows of an order after the insert of another one. *)
Lemma itemsOf_after_create (d : Db.t) (uuid id : string)
    (rows : list Order.t) (data : list OrderItem.t)
    (receipts : list OrderReceipt.t) :
  Prisma.itemsOf id
    (Db.mk rows (Db.orderItem d ++ map (OrderItemRow.mk uuid) data) receipts)
  = Prisma.itemsOf id d ++ (if String.eqb uuid id then data else []).
Proof.
  unfold Prisma.itemsOf. cbn [Db.orderItem].
  now rewrite filter_app, map_app, filter_new_rows.
Qed.

(** ** Invariants of the store *)

Lemma DbStep_Consistent (d d' : Db.t) :
  DbStep d d' -> Consistent d -> Consistent d'.
Proof.
  intros Hstep [Hunique Hitems Hreceipts Hpaid Hfields].
  destruct Hstep as [| uuid totalAmount data Hfree
                     | id status o Hfound
                     | id paidAt charge url o Hfound].
  - now constructor.
  - apply lookup_None in Hfree.
    constructor; unfold orderIds in *; cbn [Db.order Db.orderItem
                                              Db.orderReceipt].
    + rewrite map_app. cbn [map Prisma.newOrder Order.id].
      apply NoDup_app; [exact Hunique | repeat constructor; intros [] | ].
      intros x Hx [<-|[]]. contradiction.
    + intros r Hr. rewrite map_app. apply in_or_app.
      apply in_app_or in Hr. destruct Hr as [Hr|Hr]; [left; now apply Hitems|].
      right. apply in_map_iff in Hr. destruct Hr as [item [<- _]].
      now left.
    + intros r Hr. destruct (Hreceipts r Hr) as [o [Ho Hrest]].
      exists o. split; [apply in_or_app; now left | exact Hrest].
    + intros o Ho Hp. apply in_app_or in Ho. destruct Ho as [Ho|[<-|[]]].
      * now apply Hpaid.
      * discriminate Hp.
    + intros o Ho. apply in_app_or in Ho. destruct Ho as [Ho|[<-|[]]].
      * now apply Hfields.
      * simpl. split; split; intros H; try discriminate H; now elim H.
  - assert (Hid : forall o0, Order.id (setStatus status o0) = Order.id o0)
      by reflexivity.
    constructor; unfold orderIds in *; cbn [Db.order Db.orderItem
                                              Db.orderReceipt].
    + now rewrite updateRow_ids.
    + intros r Hr. rewrite updateRow_ids by exact Hid. now apply Hitems.
    + intros r Hr. destruct (Hreceipts r Hr) as [o0 [Ho0 [Hrid Hp]]].
      destruct (updateRow_In id (setStatus status) (Db.order d) o0 Ho0)
        as [H|[H _]].
      * exists o0. now repeat split.
      * exists (setStatus status o0). now repeat split.
    + intros o' Ho' Hp.
      destruct (In_updateRow id (setStatus status) (Db.order d) o' Ho')
        as [H|[o0 [Ho0 [_ ->]]]].
      * now apply Hpaid.
      * now apply (Hpaid o0 Ho0).
    + intros o' Ho'.
      destruct (In_updateRow id (setStatus status) (Db.order d) o' Ho')
        as [H|[o0 [Ho0 [_ ->]]]].
      * now apply Hfields.
      * exact (Hfields o0 Ho0).
  - assert (Hid : forall o0,
              Order.id (setPaid paidAt charge o0) = Order.id o0)
      by reflexivity.
    constructor; unfold orderIds in *; cbn [Db.order Db.orderItem
                                              Db.orderReceipt].
    + now rewrite updateRow_ids.
    + intros r Hr. rewrite updateRow_ids by exact Hid. now apply Hitems.
    + intros r Hr. apply in_app_or in Hr. destruct Hr as [Hr|[<-|[]]].
      * destruct (Hreceipts r Hr) as [o0 [Ho0 [Hrid Hp]]].
        destruct (updateRow_In id (setPaid paidAt charge) (Db.order d) o0 Ho0)
          as [H|[H _]].
        -- exists o0. now repeat split.
        -- exists (setPaid paidAt charge o0). now repeat split.
      * destruct (updateRow_found id (setPaid paidAt charge) Hid
                    (Db.order d) Hfound) as [Hin Hoid].
        exists (setPaid paidAt charge o). now repeat split.
    + intros o' Ho' Hp.
      destruct (In_updateRow id (setPaid paidAt charge) (Db.order d) o' Ho')
        as [H|[o0 [Ho0 [Hoid ->]]]].
      * destruct (Hpaid o' H Hp) as [r [Hr Hrid]].
        exists r. split; [apply in_or_app; now left | exact Hrid].
      * exists (OrderReceipt.mk id url).
        split; [apply in_or_app; right; now left | now symmetry].
    + intros o' Ho'.
      destruct (In_updateRow id (setPaid paidAt charge) (Db.order d) o' Ho')
        as [H|[o0 [Ho0 [_ ->]]]].
      * now apply Hfields.
      * simpl. split; split; intros _; [discriminate | reflexivity
                                        | discriminate | reflexivity].
Qed.

Lemma DbStep_TotalsMatch (d d' : Db.t) :
  DbStep d d' -> Consistent d -> TotalsMatch d -> TotalsMatch d'.
Proof.
  intros Hstep Hcons Htotals.
  destruct Hstep as [| uuid totalAmount data Hfree
                     | id status o Hfound
                     | id paidAt charge url o Hfound].
  - exact Htotals.
  - intros o Ho. cbn [Db.order] in Ho. rewrite itemsOf_after_create.
    apply in_app_or in Ho. destruct Ho as [Ho|[<-|[]]].
    + destruct (String.eqb_spec uuid (Order.id o)) as [E|E].
      * exfalso. apply lookup_None in Hfree. apply Hfree. rewrite E.
        unfold orderIds. now apply in_map.
      * rewrite app_nil_r. now apply Htotals.
    + cbn [Prisma.newOrder Order.id Order.totalItems].
      rewrite String.eqb_refl.
      now rewrite (itemsOf_unowned uuid d (items_owned Hcons) Hfree).
  - intros o' Ho'. cbn [Db.order] in Ho'.
    change (Prisma.itemsOf (Order.id o') (Db.mk _ (Db.orderItem d) _))
      with (Prisma.itemsOf (Order.id o') d).
    destruct (In_updateRow id (setStatus status) (Db.order d) o' Ho')
      as [H|[o0 [Ho0 [_ ->]]]]; [now apply Htotals|].
    exact (Htotals o0 Ho0).
  - intros o' Ho'. cbn [Db.order] in Ho'.
    change (Prisma.itemsOf (Order.id o') (Db.mk _ (Db.orderItem d) _))
      with (Prisma.itemsOf (Order.id o') d).
    destruct (In_updateRow id (setPaid paidAt charge) (Db.order d) o' Ho')
      as [H|[o0 [Ho0 [_ ->]]]]; [now apply Htotals|].
    exact (Htotals o0 Ho0).
Qed.

Lemma runCalls_invariant (Session : Type) (calls : list (Call Session))
    (w : World.t) :
  Consistent (World.db w) /\ TotalsMatch (World.db w) ->
  Consistent (World.db (runCalls calls w))
  /\ TotalsMatch (World.db (runCalls calls w)).
Proof.
  revert w. unfold runCalls.
  induction calls as [|call calls IH]; intros w [Hcons Htotals]; simpl.
  - now split.
  - apply IH. pose proof (runCall_step call w) as Hstep. split.
    + exact (DbStep_Consistent Hstep Hcons).
    + exact (DbStep_TotalsMatch Hstep Hcons Htotals).
Qed.

Lemma lookup_unique (d : Db.t) (o : Order.t) :
  NoDup (orderIds d) -> In o (Db.order d) ->
  Prisma.lookup (Order.id o) d = Some o.
Proof.
  unfold orderIds, Prisma.lookup.
  induction (Db.order d) as [|r rows IH]; simpl; [tauto|].
  intros Hnodup Hin. inversion Hnodup as [|? ? Hfresh Hrest]; subst.
  unfold Prisma.hasId at 1.
  destruct (String.eqb_spec (Order.id r) (Order.id o)) as [E|E].
  - destruct Hin as [->|Hin]; [reflexivity|].
    exfalso. apply Hfresh. rewrite E. now apply in_map.
  - destruct Hin as [->|Hin]; [congruence|]. now apply IH.
Qed.

Lemma receiptsOf_nonempty (id : string) (d : Db.t) :
  Prisma.receiptsOf id d <> [] <->
  exists r, In r (Db.orderReceipt d) /\ OrderReceipt.orderId r = id.
Proof.
  unfold Prisma.receiptsOf. split.
  - destruct (filter _ _) as [|r rest] eqn:E; [congruence|].
    intros _. exists r.
    assert (Hin : In r (r :: rest)) by now left.
    rewrite <- E in Hin. apply filter_In in Hin.
    destruct Hin as [Hin Hid]. split; [exact Hin | now apply String.eqb_eq].
  - intros [r [Hin Hid]] E.
    assert (H : In r (filter (fun r0 => String.eqb (OrderReceipt.orderId r0) id)
                        (Db.orderReceipt d))).
    { apply filter_In. split; [exact Hin | now apply String.eqb_eq]. }
    rewrite E in H. destruct H.
Qed.

(** The store that any sequence of calls builds from the empty one. *)
Lemma runCalls_from_empty (Session : Type) (calls : list (Call Session))
    (sent : list Message) (log : list string) :
  let d := World.db (runCalls calls (World.mk (Db.mk [] [] []) sent log)) in
  Consistent d /\ TotalsMatch d.
Proof.
  apply runCalls_invariant. split; [exact Consistent_empty|].
  intros o [].
Qed.

(** Referential integrity.  In the store that any sequence of calls of
    the service builds from the empty store, no two orders have the same
    identifier, every item row belongs to a stored order and every receipt
    belongs to a stored order that is marked paid. *)
Theorem store_references (Session : Type) (calls : list (Call Session))
    (sent : list Message) (log : list string) :
  let d := World.db (runCalls calls (World.mk (Db.mk [] [] []) sent log)) in
  NoDup (map Order.id (Db.order d))
  /\ (forall r, In r (Db.orderItem d) ->
        exists o, Prisma.lookup (OrderItemRow.orderId r) d = Some o)
  /\ (forall r, In r (Db.orderReceipt d) ->
        exists o, Prisma.lookup (OrderReceipt.orderId r) d = Some o
                  /\ Order.paid o = true).
Proof.
  intros d.
  destruct (runCalls_from_empty calls sent log) as [Hcons _]. fold d in Hcons.
  split; [exact (ids_unique Hcons)|]. split.
  - intros r Hr.
    destruct (Prisma.lookup (OrderItemRow.orderId r) d) as [o|] eqn:E;
      [now exists o|].
    apply lookup_None in E. elim E. now apply (items_owned Hcons).
  - intros r Hr.
    destruct (receipts_owned Hcons r Hr) as [o [Ho [Hid Hp]]].
    exists o. split; [|exact Hp].
    rewrite <- Hid. apply lookup_unique; [exact (ids_unique Hcons) | exact Ho].
Qed.

(** In the store that any sequence of calls builds from the empty store,
    the [totalItems] of every order is the sum of the quantities of the
    item rows stored for it. *)
Theorem store_totalItems (Session : Type) (calls : list (Call Session))
    (sent : list Message) (log : list string) (o : Order.t) :
  let d := World.db (runCalls calls (World.mk (Db.mk [] [] []) sent log)) in
  In o (Db.order d) ->
  Order.totalItems o
  = sumItemQuantities (Prisma.itemsOf (Order.id o) d).
Proof.
  intros d Ho.
  destruct (runCalls_from_empty calls sent log) as [_ Htotals].
  exact (Htotals o Ho).
Qed.

Lemma store_totalItems_witness :
  Order.totalItems (Order.mk "o1" 5 3 PENDING false None None)
  = sumItemQuantities
      (Prisma.itemsOf "o1"
         (World.db
            (runCalls [CallCreate Example.client "o1" Example.dto]
               Example.empty))).
Proof.
  apply (store_totalItems [CallCreate Example.client "o1" Example.dto]
           [] [] (Order.mk "o1" 5 3 PENDING false None None)).
  simpl. now left.
Defined.

(** The payment columns move together.  In the store that any sequence of
    calls builds from the empty store, an order is marked paid exactly
    when it has a payment date, exactly when it has a charge reference and
    exactly when a receipt is stored for it. *)
Theorem store_payment_fields (Session : Type) (calls : list (Call Session))
    (sent : list Message) (log : list string) (o : Order.t) :
  let d := World.db (runCalls calls (World.mk (Db.mk [] [] []) sent log)) in
  In o (Db.order d) ->
  (Order.paid o = true <-> Order.paidAt o <> None)
  /\ (Order.paid o = true <-> Order.stripeChargeId o <> None)
  /\ (Order.paid o = true <-> Prisma.receiptsOf (Order.id o) d <> []).
Proof.
  intros d Ho.
  destruct (runCalls_from_empty calls sent log) as [Hcons _]. fold d in Hcons.
  destruct (paid_fields Hcons o Ho) as [Hat Hcharge].
  split; [exact Hat|]. split; [exact Hcharge|].
  rewrite receiptsOf_nonempty. split.
  - intros Hp. now apply (paid_has_receipt Hcons).
  - intros [r [Hr Hid]].
    destruct (receipts_owned Hcons r Hr) as [o2 [Ho2 [Hid2 Hp]]].
    assert (Hsame : Prisma.lookup (Order.id o2) d = Some o2)
      by (apply lookup_unique; [exact (ids_unique Hcons) | exact Ho2]).
    assert (Hsame' : Prisma.lookup (Order.id o) d = Some o)
      by (apply lookup_unique; [exact (ids_unique Hcons) | exact Ho]).
    assert (Heq : o2 = o) by congruence.
    now subst o2.
Qed.

Lemma store_payment_fields_witness :
  Order.paid (Order.mk "o1" 5 3 PAID true (Some 7) (Some "ch_1")) = true <->
  Prisma.receiptsOf "o1"
    (World.db
       (runCalls
          [CallCreate Example.client "o1" Example.dto;
           CallPaidOrder 7 (PaidOrderDto.mk "o1" "ch_1" "https://r/1")]
          Example.empty)) <> [].
Proof.
  destruct (store_payment_fields
              [CallCreate Example.client "o1" Example.dto;
               CallPaidOrder 7 (PaidOrderDto.mk "o1" "ch_1" "https://r/1")]
              [] [] (Order.mk "o1" 5 3 PAID true (Some 7) (Some "ch_1")))
    as [_ [_ H]].
  - simpl. now left.
  - exact H.
Defined.

Lemma store_references_witness :
  NoDup
    (map Order.id
       (Db.order
          (World.db
             (runCalls
                [CallCreate Example.client "o1" Example.dto;
                 CallCreate Example.client "o1" Example.repeatedDto;
                 CallPaidOrder 7 (PaidOrderDto.mk "o1" "ch_1" "https://r/1")]
                Example.empty)))).
Proof.
  apply (store_references
           [CallCreate Example.client "o1" Example.dto;
            CallCreate Example.client "o1" Example.repeatedDto;
            CallPaidOrder 7 (PaidOrderDto.mk "o1" "ch_1" "https://r/1")]
           [] []).
Defined.

(** ** What no call undoes *)

Lemma DbStep_keeps (d d' : Db.t) (id : string) (o : Order.t) :
  DbStep d d' -> Prisma.lookup id d = Some o ->
  exists o', KeptBy d d' id o o'.
Proof.
  intros Hstep Hfound. unfold KeptBy.
  destruct Hstep as [| uuid totalAmount data Hfree
                     | id0 status o0 Hfound0
                     | id0 paidAt charge url o0 Hfound0].
  - exists o. repeat split; trivial. exists []. now rewrite app_nil_r.
  - exists o. split.
    { unfold Prisma.lookup in *. cbn [Db.order]. now apply find_app_some. }
    do 2 (split; [reflexivity|]). split.
    { rewrite itemsOf_after_create.
      destruct (String.eqb_spec uuid id) as [E|E]; [congruence|].
      apply app_nil_r. }
    split; [trivial|]. exists []. now rewrite app_nil_r.
  - destruct (string_dec id id0) as [->|Hne].
    + exists (setStatus status o). split.
      { unfold Prisma.lookup in *. cbn [Db.order].
        apply find_updateRow_same; [reflexivity | exact Hfound]. }
      repeat split; trivial. exists []. now rewrite app_nil_r.
    + exists o. split.
      { unfold Prisma.lookup in *. cbn [Db.order].
        rewrite find_updateRow_other; [exact Hfound | reflexivity | exact Hne]. }
      repeat split; trivial. exists []. now rewrite app_nil_r.
  - destruct (string_dec id id0) as [->|Hne].
    + exists (setPaid paidAt charge o). split.
      { unfold Prisma.lookup in *. cbn [Db.order].
        apply find_updateRow_same; [reflexivity | exact Hfound]. }
      repeat split; trivial.
      exists [OrderReceipt.mk id0 url].
      unfold Prisma.receiptsOf. cbn [Db.orderReceipt].
      rewrite filter_app. cbn [filter OrderReceipt.orderId].
      now rewrite String.eqb_refl.
    + exists o. split.
      { unfold Prisma.lookup in *. cbn [Db.order].
        rewrite find_updateRow_other; [exact Hfound | reflexivity | exact Hne]. }
      repeat split; trivial.
      exists []. unfold Prisma.receiptsOf. cbn [Db.orderReceipt].
      rewrite filter_app. cbn [filter OrderReceipt.orderId].
      destruct (String.eqb_spec id0 id) as [E|E]; [congruence|].
      reflexivity.
Qed.

Lemma KeptBy_trans (d1 d2 d3 : Db.t) (id : string) (o1 o2 o3 : Order.t) :
  KeptBy d1 d2 id o1 o2 -> KeptBy d2 d3 id o2 o3 -> KeptBy d1 d3 id o1 o3.
Proof.
  intros [_ [Ha [Hi [Hrows [Hp [l1 Hr]]]]]]
         [Hfound [Ha' [Hi' [Hrows' [Hp' [l2 Hr']]]]]].
  split; [exact Hfound|].
  split; [congruence|]. split; [congruence|]. split; [congruence|].
  split; [auto|].
  exists (l1 ++ l2). now rewrite Hr', Hr, app_assoc.
Qed.

(** No call of the service deletes or rewrites an order: after any
    sequence of calls, an order of the store is still found under its
    identifier with the same [totalAmount], the same [totalItems] and
    the same item rows; if it was paid it still is, and the receipts it
    had are still stored, before any later one. *)
Theorem order_is_kept (Session : Type) (calls : list (Call Session))
    (w : World.t) (id : string) (o : Order.t) :
  Prisma.lookup id (World.db w) = Some o ->
  exists o',
    Prisma.lookup id (World.db (runCalls calls w)) = Some o'
    /\ Order.totalAmount o' = Order.totalAmount o
    /\ Order.totalItems o' = Order.totalItems o
    /\ Prisma.itemsOf id (World.db (runCalls calls w))
       = Prisma.itemsOf id (World.db w)
    /\ (Order.paid o = true -> Order.paid o' = true)
    /\ (exists later,
          Prisma.receiptsOf id (World.db (runCalls calls w))
          = Prisma.receiptsOf id (World.db w) ++ later).
Proof.
  change (Prisma.lookup id (World.db w) = Some o ->
          exists o', KeptBy (World.db w) (World.db (runCalls calls w)) id o o').
  revert w o. unfold runCalls.
  induction calls as [|call calls IH]; intros w o Hfound; simpl.
  - exists o. unfold KeptBy. repeat split; trivial.
    exists []. now rewrite app_nil_r.
  - destruct (DbStep_keeps id (runCall_step call w) Hfound) as [o1 Hkept].
    destruct (IH (runCall call w) o1 (proj1 Hkept)) as [o' Hkept'].
    exists o'. exact (KeptBy_trans Hkept Hkept').
Qed.

Lemma order_is_kept_witness :
  exists o',
    Prisma.lookup "o1"
      (World.db
         (runCalls
            [CallChangeStatus Example.client
               (ChangeOrderStatusDto.mk "o1" CANCELLED);
             CallPaidOrder 7 (PaidOrderDto.mk "o1" "ch_1" "https://r/1");
             CallCreate Example.client "o2" Example.repeatedDto]
            Example.world)) = Some o'
    /\ Order.totalAmount o' = 5
    /\ Order.totalItems o' = 3.
Proof.
  destruct (order_is_kept
              [CallChangeStatus Example.client
                 (ChangeOrderStatusDto.mk "o1" CANCELLED);
               CallPaidOrder 7 (PaidOrderDto.mk "o1" "ch_1" "https://r/1");
               CallCreate Example.client "o2" Example.repeatedDto]
              Example.world "o1" (o := Example.stored) eq_refl)
    as [o' [Hfound [Hamount [Hitems _]]]].
  exists o'. split; [exact Hfound|]. split; assumption.
Defined.

(** ** Page sizes *)

(** The run of [findAll] for a page number and a limit of at least 1. *)
Lemma findAll_run (orderPaginationDto : OrderPaginationDto.t) (w : World.t) :
  let status := OrderPaginationDto.status orderPaginationDto in
  let page := OrderPaginationDto.page orderPaginationDto in
  let limit := OrderPaginationDto.limit orderPaginationDto in
  let rows := filter (Prisma.hasStatus status) (Db.order (World.db w)) in
  let total := Z.of_nat (List.length rows) in
  1 <= page -> 1 <= limit ->
  findAll orderPaginationDto w
  = (Ok (Page.mk
           (firstn (Z.to_nat limit)
              (skipn (Z.to_nat ((page - 1) * limit)) rows))
           (Meta.mk total page
              (Math_ceil (inject_Z total / inject_Z limit)%Q))),
     w).
Proof.
  intros status page limit rows total Hpage Hlimit.
  unfold findAll, bind, Prisma.order_count, Prisma.order_findMany, ret.
  fold status. fold page. fold limit. fold rows. fold total.
  replace ((page - 1) * limit <? 0) with false
    by (symmetry; apply Z.ltb_ge; nia).
  replace (limit <? 0) with false by (symmetry; apply Z.ltb_ge; lia).
  reflexivity.
Qed.

(** The number of rows of a page: with T matching rows, page and limit at
    least 1, [findAll] returns exactly min (limit, max (0, T - (page - 1) *
    limit)) rows - full pages before the last one, the remainder on the
    last one, none beyond. *)
Theorem findAll_page_size (orderPaginationDto : OrderPaginationDto.t)
    (w : World.t) :
  let status := OrderPaginationDto.status orderPaginationDto in
  let page := OrderPaginationDto.page orderPaginationDto in
  let limit := OrderPaginationDto.limit orderPaginationDto in
  let total :=
    Z.of_nat (List.length (filter (Prisma.hasStatus status)
                             (Db.order (World.db w)))) in
  1 <= page -> 1 <= limit ->
  Z.of_nat (List.length (dataOf (findAll orderPaginationDto w)))
  = Z.min limit (Z.max 0 (total - (page - 1) * limit)).
Proof.
  intros status page limit total Hpage Hlimit.
  unfold dataOf. rewrite findAll_run by assumption.
  cbn [fst Page.data]. fold status. fold page. fold limit.
  rewrite length_firstn, length_skipn.
  assert (Hskip : 0 <= (page - 1) * limit) by nia.
  subst total. lia.
Qed.

Lemma findAll_page_size_witness :
  Z.of_nat
    (List.length
       (dataOf (findAll (OrderPaginationDto.mk (Some PENDING) 2 10)
                  Example.fifteen)))
  = 5.
Proof.
  rewrite (findAll_page_size (OrderPaginationDto.mk (Some PENDING) 2 10)
             Example.fifteen); [reflexivity | simpl; lia | simpl; lia].
Defined.

(** When no order matches the filter, every page is empty and
    [meta.lastPage] is 0: page 1 itself is beyond the last page. *)
Theorem findAll_nothing_matches (orderPaginationDto : OrderPaginationDto.t)
    (w : World.t) :
  let status := OrderPaginationDto.status orderPaginationDto in
  let page := OrderPaginationDto.page orderPaginationDto in
  let limit := OrderPaginationDto.limit orderPaginationDto in
  filter (Prisma.hasStatus status) (Db.order (World.db w)) = [] ->
  1 <= page -> 1 <= limit ->
  findAll orderPaginationDto w = (Ok (Page.mk [] (Meta.mk 0 page 0)), w).
Proof.
  intros status page limit Hnone Hpage Hlimit.
  rewrite findAll_run by assumption.
  fold status. fold page. fold limit. rewrite Hnone.
  rewrite skipn_nil, firstn_nil. cbn [List.length Z.of_nat].
  rewrite Math_ceil_div. reflexivity.
Qed.

Lemma findAll_nothing_matches_witness :
  findAll (OrderPaginationDto.mk (Some DELIVERED) 1 10) Example.world
  = (Ok (Page.mk [] (Meta.mk 0 1 0)), Example.world).
Proof.
  apply (findAll_nothing_matches
           (OrderPaginationDto.mk (Some DELIVERED) 1 10) Example.world);
    [reflexivity | simpl; lia | simpl; lia].
Defined.

(** ** Two status changes in a row *)

Lemma updateRow_twice (id : string) (f g : Order.t -> Order.t)
    (rows : list Order.t) :
  (forall o, Order.id (g o) = Order.id o) ->
  (forall o, f (g o) = f o) ->
  Prisma.updateRow id f (Prisma.updateRow id g rows)
  = Prisma.updateRow id f rows.
Proof.
  intros Hid Hfg.
  induction rows as [|r rows IH]; simpl; [reflexivity|].
  destruct (Prisma.hasId id r) eqn:E; simpl.
  - unfold Prisma.hasId in *. rewrite Hid, E. now rewrite Hfg.
  - rewrite E. now rewrite IH.
Qed.

(** The database [changeStatus] leaves for a stored order all of whose
    products the validator knows. *)
Lemma changeStatus_db (Session : Type) (client : ClientProxy.t Session)
    (id : string) (status : OrderStatus) (w : World.t) (o : Order.t)
    (products : list Product.t) :
  let items := Prisma.itemsOf id (World.db w) in
  Prisma.lookup id (World.db w) = Some o ->
  ClientProxy.validateProducts client (map OrderItem.productId items)
  = Ok products ->
  (forall item, In item items ->
     In (OrderItem.productId item) (map Product.id products)) ->
  World.db (after (changeStatus client (ChangeOrderStatusDto.mk id status)) w)
  = Db.mk (Prisma.updateRow id (setStatus status) (Db.order (World.db w)))
      (Db.orderItem (World.db w)) (Db.orderReceipt (World.db w)).
Proof.
  intros items Hfound Hreply Hknown.
  unfold after. rewrite changeStatus_run.
  rewrite (findOne_found client id w Hfound).
  fold items. rewrite Hreply. rewrite mapM_withName by exact Hknown.
  unfold Prisma.order_update. cbn [emit World.db]. rewrite Hfound.
  reflexivity.
Qed.

(** The database [changeStatus] leaves in general: the one it found, or
    the one with the status written. *)
Lemma changeStatus_db_cases (Session : Type) (client : ClientProxy.t Session)
    (id : string) (status : OrderStatus) (w : World.t) :
  let d' :=
    World.db
      (after (changeStatus client (ChangeOrderStatusDto.mk id status)) w) in
  d' = World.db w
  \/ (exists o, Prisma.lookup id (World.db w) = Some o)
     /\ d' = Db.mk
               (Prisma.updateRow id (setStatus status) (Db.order (World.db w)))
               (Db.orderItem (World.db w)) (Db.orderReceipt (World.db w)).
Proof.
  unfold after. rewrite changeStatus_run.
  pose proof (findOne_db client id w) as Hdb. unfold after in Hdb.
  destruct (findOne client id w) as [[order|error] w1]; cbn [snd] in *.
  - unfold Prisma.order_update. rewrite Hdb.
    destruct (Prisma.lookup id (World.db w)) as [o|] eqn:Hlookup;
      cbn [snd World.db].
    + right. split; [now exists o | reflexivity].
    + left. exact Hdb.
  - left. exact Hdb.
Qed.

(** Of two status changes of the same order in a row, the second alone
    decides the store: if the second change can be made on the store as it
    is, then making it after any first change - whether that one went
    through or failed - leaves the same database as making it alone. *)
Theorem changeStatus_last_wins (Session : Type)
    (first second : ClientProxy.t Session) (id : string)
    (status1 status2 : OrderStatus) (w : World.t) (o : Order.t)
    (products : list Product.t) :
  let items := Prisma.itemsOf id (World.db w) in
  Prisma.lookup id (World.db w) = Some o ->
  ClientProxy.validateProducts second (map OrderItem.productId items)
  = Ok products ->
  (forall item, In item items ->
     In (OrderItem.productId item) (map Product.id products)) ->
  World.db
    (after (changeStatus second (ChangeOrderStatusDto.mk id status2))
       (after (changeStatus first (ChangeOrderStatusDto.mk id status1)) w))
  = World.db
      (after (changeStatus second (ChangeOrderStatusDto.mk id status2)) w).
Proof.
  intros items Hfound Hreply Hknown.
  rewrite (changeStatus_db second id status2 w Hfound Hreply Hknown).
  set (w1 := after (changeStatus first (ChangeOrderStatusDto.mk id status1)) w).
  destruct (changeStatus_db_cases first id status1 w) as [Hsame|[_ Hupd]];
    fold w1 in Hsame || fold w1 in Hupd.
  - assert (Hitems : Prisma.itemsOf id (World.db w1) = items)
      by now rewrite Hsame.
    rewrite (changeStatus_db second id status2 w1 (o := o)
               (products := products)).
    + now rewrite Hsame.
    + now rewrite Hsame.
    + now rewrite Hitems.
    + now rewrite Hitems.
  - assert (Hitems : Prisma.itemsOf id (World.db w1) = items)
      by now rewrite Hupd.
    rewrite (changeStatus_db second id status2 w1
               (o := setStatus status1 o) (products := products)).
    + rewrite Hupd. cbn [Db.order Db.orderItem Db.orderReceipt].
      now rewrite updateRow_twice.
    + rewrite Hupd. unfold Prisma.lookup in *. cbn [Db.order].
      apply find_updateRow_same; [reflexivity | exact Hfound].
    + now rewrite Hitems.
    + now rewrite Hitems.
Qed.

Lemma changeStatus_last_wins_witness :
  World.db
    (after (changeStatus Example.client
              (ChangeOrderStatusDto.mk "o1" DELIVERED))
       (after (changeStatus Example.offline
                 (ChangeOrderStatusDto.mk "o1" CANCELLED)) Example.world))
  = World.db
      (after (changeStatus Example.client
                (ChangeOrderStatusDto.mk "o1" DELIVERED)) Example.world).
Proof.
  apply (changeStatus_last_wins Example.offline Example.client "o1"
           CANCELLED DELIVERED Example.world (o := Example.stored)
           (products := Example.products) eq_refl eq_refl).
  intros item [<-|[<-|[]]]; simpl; tauto.
Defined.
